(** * Task simplifier: configuration validation, provider dispatch and
      multi-provider selection

    A shallow embedding of [src/task_simplifier.py] (classes [AIProvider],
    [TaskSimplifier] and [TaskSimplifierManager]) together with the
    properties its specification states about it.

    Conventions of the embedding.
    - A Python [str] is the list of its Unicode code points ([pystr]), so that
      [len] is [length] and slicing, [strip], [startswith] and [in] are list
      functions.  Literals are written in UTF-8 and decoded by [u8].
    - Python values that travel through configurations and JSON replies are
      the inductive [pyval]; a [float] is a binary64 value of
      [SpecFloat.spec_float].
    - Exceptions are values of [exn] (class and [str(e)]); a computation that
      may raise has type [exc A]; a function body with early [return]s has
      type [flow R A].
    - The parts of the Python runtime whose behaviour is fixed by the
      interpreter and its Unicode tables, not by this repository (parsing a
      number out of a string, [repr] of floats and containers, Unicode case
      mapping) are the fields of the class [PyBuiltins].
    - Network and SDK calls are events of a free monad [prog]; an [env]
      answers them. *)

From Stdlib Require Import ZArith NArith String Ascii DecimalString SpecFloat.
From stdpp Require Import gmap list.

Local Open Scope Z_scope.

(** ** Python strings as code-point sequences *)

Abbreviation pystr := (list N).

Module Str.

(** Decoding of a UTF-8 literal into code points. *)
Fixpoint utf8_decode (s : string) : pystr :=
  match s with
  | EmptyString => []
  | String c0 r0 =>
    let b0 := N_of_ascii c0 in
    if (b0 <? 0x80)%N then b0 :: utf8_decode r0
    else if (b0 <? 0xE0)%N then
      match r0 with
      | String c1 r1 =>
        ((b0 - 0xC0) * 0x40 + (N_of_ascii c1 - 0x80))%N :: utf8_decode r1
      | _ => []
      end
    else if (b0 <? 0xF0)%N then
      match r0 with
      | String c1 (String c2 r2) =>
        ((b0 - 0xE0) * 0x1000 + (N_of_ascii c1 - 0x80) * 0x40
         + (N_of_ascii c2 - 0x80))%N :: utf8_decode r2
      | _ => []
      end
    else
      match r0 with
      | String c1 (String c2 (String c3 r3)) =>
        ((b0 - 0xF0) * 0x40000 + (N_of_ascii c1 - 0x80) * 0x1000
         + (N_of_ascii c2 - 0x80) * 0x40 + (N_of_ascii c3 - 0x80))%N
        :: utf8_decode r3
      | _ => []
      end
  end.

#[global] Arguments utf8_decode : simpl never.

(** [str.isspace] on one code point: the whitespace set of CPython's
    [_PyUnicode_IsWhitespace], which is what [str.strip()] removes. *)
Definition isspace (c : N) : bool :=
  ((0x09 <=? c) && (c <=? 0x0D) || (0x1C <=? c) && (c <=? 0x20)
   || (c =? 0x85) || (c =? 0xA0) || (c =? 0x1680)
   || (0x2000 <=? c) && (c <=? 0x200A)
   || (c =? 0x2028) || (c =? 0x2029) || (c =? 0x202F) || (c =? 0x205F)
   || (c =? 0x3000))%N.

Fixpoint lstrip (s : pystr) : pystr :=
  match s with
  | [] => []
  | c :: r => if isspace c then lstrip r else s
  end.

Definition rstrip (s : pystr) : pystr := rev (lstrip (rev s)).

(** [s.strip()] *)
Definition strip (s : pystr) : pystr := rstrip (lstrip s).

(** [s.startswith(p)] *)
Fixpoint startswith (s p : pystr) : bool :=
  match p, s with
  | [], _ => true
  | _ :: _, [] => false
  | a :: p', b :: s' => (a =? b)%N && startswith s' p'
  end.

(** [needle in hay] *)
Fixpoint contains (hay needle : pystr) : bool :=
  startswith hay needle ||
  match hay with
  | [] => false
  | _ :: hay' => contains hay' needle
  end.

(** [sep.join(parts)] *)
Fixpoint join (sep : pystr) (parts : list pystr) : pystr :=
  match parts with
  | [] => []
  | [p] => p
  | p :: rest => p ++ sep ++ join sep rest
  end.

(** [str(z)] for an [int]: the decimal numeral. *)
Definition of_Z (z : Z) : pystr :=
  utf8_decode (NilZero.string_of_int (Z.to_int z)).

(** ASCII part of [str.upper]. *)
Definition ascii_upper (c : N) : N :=
  if ((0x61 <=? c) && (c <=? 0x7A))%N then (c - 0x20)%N else c.

(** ASCII part of [str.lower]. *)
Definition ascii_lower (c : N) : N :=
  if ((0x41 <=? c) && (c <=? 0x5A))%N then (c + 0x20)%N else c.

End Str.

Abbreviation u8 := Str.utf8_decode.

(** ** Python values, exceptions and control flow *)

(** The values found in a configuration dictionary or in a decoded JSON
    reply.  [PDict] keeps the items in insertion order; lookup takes the
    first binding of a key. *)
#[warnings="-register-all"]
Inductive pyval : Type :=
| PNone
| PBool (b : bool)
| PInt (z : Z)
| PFloat (f : spec_float)
| PStr (s : pystr)
| PList (l : list pyval)
| PDict (d : list (pystr * pyval)).

(** The exception classes the code distinguishes, all below [Exception]. *)
Inductive exn_class : Type :=
| AttributeError | TypeError | ValueError | OverflowError
| KeyError | IndexError
| TimeoutError     (* asyncio.TimeoutError *)
| OtherException.  (* any other subclass of Exception *)

#[global] Instance exn_class_eq_dec : EqDecision exn_class.
Proof. solve_decision. Defined.

(** An exception object: its class and [str(e)]. *)
Record exn : Type := Exn { exn_cls : exn_class; exn_msg : pystr }.

(** A computation that returns or raises. *)
Inductive exc (A : Type) : Type :=
| Ok (a : A)
| Raise (e : exn).
Arguments Ok {A} a.
Arguments Raise {A} e.

#[global] Instance exc_ret : MRet exc := fun A a => Ok a.
#[global] Instance exc_bind : MBind exc := fun A B f m =>
  match m with
  | Ok a => f a
  | Raise e => Raise e
  end.

(** The body of a function with early [return]: it falls through to the next
    statement with a value, returns [r] from the function, or raises. *)
Inductive flow (R A : Type) : Type :=
| Next (a : A)
| Return (r : R)
| Throw (e : exn).
Arguments Next {R A} a.
Arguments Return {R A} r.
Arguments Throw {R A} e.

#[global] Instance flow_ret {R} : MRet (flow R) := fun A a => Next a.
#[global] Instance flow_bind {R} : MBind (flow R) := fun A B f m =>
  match m with
  | Next a => f a
  | Return r => Return r
  | Throw e => Throw e
  end.

(** An expression that may raise, used as a statement of a body. *)
Definition lift {R A} (m : exc A) : flow R A :=
  match m with
  | Ok a => Next a
  | Raise e => Throw e
  end.

(** [type(v).__name__] *)
Definition type_name (v : pyval) : pystr :=
  match v with
  | PNone => u8 "NoneType"
  | PBool _ => u8 "bool"
  | PInt _ => u8 "int"
  | PFloat _ => u8 "float"
  | PStr _ => u8 "str"
  | PList _ => u8 "list"
  | PDict _ => u8 "dict"
  end.

(** Truth value of an object, as tested by [if], [not], [and]. *)
Definition truthy (v : pyval) : bool :=
  match v with
  | PNone => false
  | PBool b => b
  | PInt z => negb (z =? 0)
  | PFloat (S754_zero _) => false
  | PFloat _ => true
  | PStr s => negb (bool_decide (s = []))
  | PList l => negb (bool_decide (length l = 0%nat))
  | PDict d => negb (bool_decide (length d = 0%nat))
  end.

(** [a and b], with [b] evaluated only when [a] is true: the value is [a]
    itself when [a] is false, and [b] otherwise. *)
Definition py_and (a : pyval) (b : unit -> pyval) : pyval :=
  if truthy a then b tt else a.

(** [v.strip()]: a string method; any other value has no such attribute. *)
Definition py_strip (v : pyval) : exc pystr :=
  match v with
  | PStr s => Ok (Str.strip s)
  | _ => Raise (Exn AttributeError
                  (u8 "'" ++ type_name v ++ u8 "' object has no attribute 'strip'"))
  end.

(** *** Floats *)

(** [int(f)] truncates a finite float toward zero. *)
Definition float_trunc (s : bool) (m : positive) (e : Z) : Z :=
  let a := match e with
           | Z0 => Zpos m
           | Zpos p => Z.shiftl (Zpos m) e
           | Zneg p => Z.shiftr (Zpos m) (Zpos p)
           end in
  if s then - a else a.

(** [f < z] and [f > z] for a float and an [int]; Python compares the two
    exactly, and every comparison with a NaN is false. *)
Definition float_cmp_int (f : spec_float) (z : Z) : option comparison :=
  match f with
  | S754_nan => None
  | S754_infinity s => Some (if s then Lt else Gt)
  | S754_zero _ => Some (0 ?= z)
  | S754_finite s m e =>
    let n := if s then Zneg m else Zpos m in
    match e with
    | Zneg p => Some (n ?= z * 2 ^ Zpos p)
    | _ => Some (n * 2 ^ e ?= z)
    end
  end.

Definition float_lt_int (f : spec_float) (z : Z) : bool :=
  match float_cmp_int f z with Some Lt => true | _ => false end.

Definition float_gt_int (f : spec_float) (z : Z) : bool :=
  match float_cmp_int f z with Some Gt => true | _ => false end.

(** [float(z)] for an [int]: round to nearest even in binary64, and
    [OverflowError] beyond the largest finite float. *)
Definition float_of_Z (z : Z) : exc spec_float :=
  match binary_normalize 53 1024 z 0 false with
  | S754_infinity _ =>
    Raise (Exn OverflowError (u8 "int too large to convert to float"))
  | f => Ok f
  end.

(** The literal [0.1]: the binary64 value nearest to one tenth,
    [0x1999999999999A * 2^-56]. *)
Definition float_0_1 : spec_float := S754_finite false 0x1999999999999A (-56).

(** *** What the interpreter supplies *)

Class PyBuiltins : Type := {
  (** [int(s)] on a string; [None] when it raises [ValueError] *)
  int_of_str : pystr -> option Z;
  (** [float(s)] on a string; [None] when it raises [ValueError] *)
  float_of_str : pystr -> option spec_float;
  (** [repr] of a float, which is also its [str] *)
  repr_float : spec_float -> pystr;
  (** [repr] of a str, a list or a dict *)
  repr_obj : pyval -> pystr;
  (** [str.upper] on one code point outside ASCII *)
  unicode_upper : N -> pystr;
  (** [str.lower] *)
  str_lower : pystr -> pystr
}.

Section Builtins.
Context `{PyBuiltins}.

(** [int(v)] *)
Definition py_int (v : pyval) : exc Z :=
  match v with
  | PBool b => Ok (if b then 1 else 0)
  | PInt z => Ok z
  | PFloat S754_nan =>
    Raise (Exn ValueError (u8 "cannot convert float NaN to integer"))
  | PFloat (S754_infinity _) =>
    Raise (Exn OverflowError (u8 "cannot convert float infinity to integer"))
  | PFloat (S754_zero _) => Ok 0
  | PFloat (S754_finite s m e) => Ok (float_trunc s m e)
  | PStr s =>
    match int_of_str s with
    | Some z => Ok z
    | None =>
      Raise (Exn ValueError
               (u8 "invalid literal for int() with base 10: " ++ repr_obj v))
    end
  | PNone | PList _ | PDict _ =>
    Raise (Exn TypeError
             (u8 "int() argument must be a string, a bytes-like object or a real number, not '"
              ++ type_name v ++ u8 "'"))
  end.

(** [float(v)] *)
Definition py_float (v : pyval) : exc spec_float :=
  match v with
  | PBool b => float_of_Z (if b then 1 else 0)
  | PInt z => float_of_Z z
  | PFloat f => Ok f
  | PStr s =>
    match float_of_str s with
    | Some f => Ok f
    | None =>
      Raise (Exn ValueError
               (u8 "could not convert string to float: " ++ repr_obj v))
    end
  | PNone | PList _ | PDict _ =>
    Raise (Exn TypeError
             (u8 "float() argument must be a string or a real number, not '"
              ++ type_name v ++ u8 "'"))
  end.

(** [str(v)], which is what an f-string field [{v}] inserts. *)
Definition py_str (v : pyval) : pystr :=
  match v with
  | PNone => u8 "None"
  | PBool true => u8 "True"
  | PBool false => u8 "False"
  | PInt z => Str.of_Z z
  | PFloat f => repr_float f
  | PStr s => s
  | PList _ | PDict _ => repr_obj v
  end.

(** [s.upper()]: code point by code point. *)
Definition str_upper (s : pystr) : pystr :=
  flat_map (fun c => if (c <? 0x80)%N then [Str.ascii_upper c]
                     else unicode_upper c) s.

End Builtins.

(** [d.get(k, default)] *)
Definition dict_get (d : gmap pystr pyval) (k : pystr) (dflt : pyval) : pyval :=
  default dflt (d !! k).

(** ** [class AIProvider(Enum)] *)

Inductive AIProvider : Type :=
| DEEPSEEK | DOUBAO | YUANBAO | OPENAI | GEMINI | CLAUDE | GLM | WENXIN | TONGYI.

#[global] Instance AIProvider_eq_dec : EqDecision AIProvider.
Proof. solve_decision. Defined.

(** The members in definition order, which is the order of [for p in
    AIProvider]. *)
Definition all_providers : list AIProvider :=
  [DEEPSEEK; DOUBAO; YUANBAO; OPENAI; GEMINI; CLAUDE; GLM; WENXIN; TONGYI].

Definition provider_index (p : AIProvider) : nat :=
  match p with
  | DEEPSEEK => 0 | DOUBAO => 1 | YUANBAO => 2 | OPENAI => 3 | GEMINI => 4
  | CLAUDE => 5 | GLM => 6 | WENXIN => 7 | TONGYI => 8
  end%nat.

Definition provider_of_index (n : nat) : option AIProvider := all_providers !! n.

#[global] Instance AIProvider_countable : Countable AIProvider :=
  inj_countable provider_index provider_of_index
    (fun p => match p return provider_of_index (provider_index p) = Some p with
              | DEEPSEEK | DOUBAO | YUANBAO | OPENAI | GEMINI
              | CLAUDE | GLM | WENXIN | TONGYI => eq_refl
              end).

(** [provider.value] *)
Definition value (p : AIProvider) : pystr :=
  match p with
  | DEEPSEEK => u8 "deepseek"
  | DOUBAO => u8 "doubao"
  | YUANBAO => u8 "yuanbao"
  | OPENAI => u8 "openai"
  | GEMINI => u8 "gemini"
  | CLAUDE => u8 "claude"
  | GLM => u8 "glm"
  | WENXIN => u8 "wenxin"
  | TONGYI => u8 "tongyi"
  end.

(** ** [TaskSimplifier._validate_config] *)

(** The dictionary [_validate_config] returns: [{"valid": True}] or
    [{"valid": False, "error": ..., "field": ...}].  A key that is absent is
    [None]. *)
Record ValidationResult : Type := {
  valid : bool;
  v_error : option pystr;
  v_field : option pystr
}.

Definition valid_result : ValidationResult :=
  {| valid := true; v_error := None; v_field := None |}.

Definition invalid (error field : pystr) : ValidationResult :=
  {| valid := false; v_error := Some error; v_field := Some field |}.

Section Validation.
Context `{PyBuiltins}.

Abbreviation check A := (flow ValidationResult A).

(** Lines 46-53: [api_key] is present and not blank.  The stripped key is
    kept for the format rules. *)
Definition check_api_key (provider : AIProvider) (config : gmap pystr pyval)
  : check pystr :=
  api_key ← lift (py_strip (dict_get config (u8 "api_key") (PStr [])));
  if negb (truthy (PStr api_key)) then
    Return (invalid (value provider ++ u8 "平台的API密钥为空，请设置有效的API密钥")
                    (u8 "api_key"))
  else Next api_key.

(** Lines 55-90: the key format of deepseek, openai and doubao. *)
Definition check_key_format (provider : AIProvider) (api_key : pystr)
  : check unit :=
  match provider with
  | DEEPSEEK =>
    if negb (Str.startswith api_key (u8 "sk-")) then
      Return (invalid (u8 "DeepSeek API密钥格式错误，正确格式应为: sk-xxxxx")
                      (u8 "api_key"))
    else if (length api_key <? 20)%nat then
      Return (invalid (u8 "DeepSeek API密钥长度不足，请检查是否完整")
                      (u8 "api_key"))
    else Next tt
  | OPENAI =>
    if negb (Str.startswith api_key (u8 "sk-")) then
      Return (invalid (u8 "OpenAI API密钥格式错误，正确格式应为: sk-xxxxx")
                      (u8 "api_key"))
    else if (length api_key <? 20)%nat then
      Return (invalid (u8 "OpenAI API密钥长度不足，请检查是否完整")
                      (u8 "api_key"))
    else Next tt
  | DOUBAO =>
    if (length api_key <? 16)%nat then
      Return (invalid (u8 "豆包API密钥长度不足，请检查是否完整") (u8 "api_key"))
    else Next tt
  | _ => Next tt
  end.

(** Lines 92-107: [base_url] is present, not blank, and has an http(s)
    scheme. *)
Definition check_base_url (provider : AIProvider) (config : gmap pystr pyval)
  : check pystr :=
  base_url ← lift (py_strip (dict_get config (u8 "base_url") (PStr [])));
  if negb (truthy (PStr base_url)) then
    Return (invalid (value provider ++ u8 "平台的接口地址为空，请设置正确的接口地址")
                    (u8 "base_url"))
  else if negb (Str.startswith base_url (u8 "http://")
                || Str.startswith base_url (u8 "https://")) then
    Return (invalid (u8 "接口地址格式错误，必须以http://或https://开头，当前地址: "
                     ++ base_url)
                    (u8 "base_url"))
  else Next base_url.

(** Lines 109-132: the host a deepseek, openai or doubao address names. *)
Definition check_url_substring (provider : AIProvider) (base_url : pystr)
  : check unit :=
  match provider with
  | DEEPSEEK =>
    if negb (Str.contains base_url (u8 "api.deepseek.com")) then
      Return (invalid (u8 "DeepSeek接口地址不正确，正确地址应包含api.deepseek.com，当前地址: "
                       ++ base_url)
                      (u8 "base_url"))
    else Next tt
  | OPENAI =>
    if negb (Str.contains base_url (u8 "api.openai.com")) then
      Return (invalid (u8 "OpenAI接口地址不正确，正确地址应包含api.openai.com，当前地址: "
                       ++ base_url)
                      (u8 "base_url"))
    else Next tt
  | DOUBAO =>
    if negb (Str.contains base_url (u8 "volcengine.com")) then
      Return (invalid (u8 "豆包接口地址不正确，正确地址应包含volcengine.com，当前地址: "
                       ++ base_url)
                      (u8 "base_url"))
    else Next tt
  | _ => Next tt
  end.

(** Lines 134-168: [model] is present, not blank, and named as the provider
    names its models. *)
Definition check_model (provider : AIProvider) (config : gmap pystr pyval)
  : check unit :=
  model ← lift (py_strip (dict_get config (u8 "model") (PStr [])));
  if negb (truthy (PStr model)) then
    Return (invalid (value provider ++ u8 "平台的模型名称为空，请选择有效的模型")
                    (u8 "model"))
  else
    match provider with
    | DEEPSEEK =>
      let valid_models := [u8 "deepseek-chat"; u8 "deepseek-coder"] in
      if negb (bool_decide (model ∈ valid_models))
         && negb (Str.startswith model (u8 "deepseek-")) then
        Return (invalid (u8 "DeepSeek模型名称不正确，常用模型: deepseek-chat, deepseek-coder，当前模型: "
                         ++ model)
                        (u8 "model"))
      else Next tt
    | OPENAI =>
      let valid_models :=
        [u8 "gpt-3.5-turbo"; u8 "gpt-4"; u8 "gpt-4-turbo"; u8 "gpt-4o"] in
      if negb (existsb (fun vm => Str.startswith model vm) valid_models) then
        Return (invalid (u8 "OpenAI模型名称不正确，常用模型: gpt-3.5-turbo, gpt-4, gpt-4-turbo, gpt-4o，当前模型: "
                         ++ model)
                        (u8 "model"))
      else Next tt
    | DOUBAO =>
      if negb (Str.startswith model (u8 "ep-")
               || Str.startswith model (u8 "doubao-")) then
        Return (invalid (u8 "豆包模型名称不正确，应以ep-或doubao-开头，当前模型: " ++ model)
                        (u8 "model"))
      else Next tt
    | _ => Next tt
    end.

(** [except (ValueError, TypeError)] *)
Definition is_value_or_type_error (e : exn) : bool :=
  match exn_cls e with
  | ValueError | TypeError => true
  | _ => false
  end.

Definition timeout_range_error (timeout : Z) : pystr :=
  u8 "超时设置不合理，建议设置1-300秒之间，当前设置: " ++ Str.of_Z timeout ++ u8 "秒".

Definition timeout_format_error (timeout : pyval) : pystr :=
  u8 "超时设置格式错误，请输入数字，当前设置: " ++ py_str timeout.

(** Lines 170-185.  When [int] raises, the name [timeout] still holds the
    value read from the configuration. *)
Definition check_timeout (config : gmap pystr pyval) : check unit :=
  let timeout := dict_get config (u8 "timeout") (PInt 30) in
  match py_int timeout with
  | Ok timeout =>
    if (timeout <? 1) || (timeout >? 300) then
      Return (invalid (timeout_range_error timeout) (u8 "timeout"))
    else Next tt
  | Raise e =>
    if is_value_or_type_error e then
      Return (invalid (timeout_format_error timeout) (u8 "timeout"))
    else Throw e
  end.

(** Lines 187-202. *)
Definition check_max_tokens (config : gmap pystr pyval) : check unit :=
  let max_tokens := dict_get config (u8 "max_tokens") (PInt 200) in
  match py_int max_tokens with
  | Ok max_tokens =>
    if (max_tokens <? 1) || (max_tokens >? 8000) then
      Return (invalid (u8 "最大Token数设置不合理，建议设置1-8000之间，当前设置: "
                       ++ Str.of_Z max_tokens)
                      (u8 "max_tokens"))
    else Next tt
  | Raise e =>
    if is_value_or_type_error e then
      Return (invalid (u8 "最大Token数格式错误，请输入数字，当前设置: "
                       ++ py_str max_tokens)
                      (u8 "max_tokens"))
    else Throw e
  end.

(** Lines 204-219. *)
Definition check_temperature (config : gmap pystr pyval) : check unit :=
  let temperature := dict_get config (u8 "temperature") (PFloat float_0_1) in
  match py_float temperature with
  | Ok temperature =>
    if float_lt_int temperature 0 || float_gt_int temperature 2 then
      Return (invalid (u8 "温度参数设置不合理，应设置0-2之间，当前设置: "
                       ++ repr_float temperature)
                      (u8 "temperature"))
    else Next tt
  | Raise e =>
    if is_value_or_type_error e then
      Return (invalid (u8 "温度参数格式错误，请输入数字，当前设置: "
                       ++ py_str temperature)
                      (u8 "temperature"))
    else Throw e
  end.

(** The [try] block of [_validate_config], lines 46-221. *)
Definition validate_body (provider : AIProvider) (config : gmap pystr pyval)
  : check ValidationResult :=
  api_key ← check_api_key provider config;
  check_key_format provider api_key;;
  base_url ← check_base_url provider config;
  check_url_substring provider base_url;;
  check_model provider config;;
  check_timeout config;;
  check_max_tokens config;;
  check_temperature config;;
  Return valid_result.

(** [_validate_config]: the body under [except Exception as e], lines
    223-228. *)
Definition _validate_config (provider : AIProvider) (config : gmap pystr pyval)
  : ValidationResult :=
  match validate_body provider config with
  | Next r | Return r => r
  | Throw e => invalid (u8 "配置验证异常: " ++ exn_msg e) (u8 "unknown")
  end.

(** *** The checks one by one

    The same checks, for stating in which order they run. *)

(** The checks on [api_key], [base_url] and [model], lines 46-168. *)
Definition checks_before_timeout (provider : AIProvider)
    (config : gmap pystr pyval) : check unit :=
  api_key ← check_api_key provider config;
  check_key_format provider api_key;;
  base_url ← check_base_url provider config;
  check_url_substring provider base_url;;
  check_model provider config.

(** The eight checks in the order of the source, each one read off the
    configuration alone. *)
Definition checks (provider : AIProvider) (config : gmap pystr pyval)
  : list (check unit) :=
  [ check_api_key provider config;; Next tt;
    (api_key ← lift (py_strip (dict_get config (u8 "api_key") (PStr [])));
     check_key_format provider api_key);
    check_base_url provider config;; Next tt;
    (base_url ← lift (py_strip (dict_get config (u8 "base_url") (PStr [])));
     check_url_substring provider base_url);
    check_model provider config;
    check_timeout config;
    check_max_tokens config;
    check_temperature config ].

(** The outcome of the first check of a list that does not pass. *)
Fixpoint first_stop {R} (cs : list (flow R unit)) : flow R unit :=
  match cs with
  | [] => Next tt
  | c :: cs' =>
    match c with
    | Next _ => first_stop cs'
    | stop => stop
    end
  end.

(** [config] with the default of [config.get(k, dflt)] written into it. *)
Definition fill (k : pystr) (dflt : pyval) (config : gmap pystr pyval)
  : gmap pystr pyval :=
  match config !! k with
  | Some _ => config
  | None => <[k := dflt]> config
  end.

Definition with_defaults (config : gmap pystr pyval) : gmap pystr pyval :=
  fill (u8 "temperature") (PFloat float_0_1)
    (fill (u8 "max_tokens") (PInt 200)
       (fill (u8 "timeout") (PInt 30) config)).

End Validation.

(** ** Result dictionaries and the object store *)

(** The dictionary a provider call returns.  [success] and [simplified_task]
    are in every dictionary the code builds; a key that is absent is [None].
    [all_results] holds a reference to a list object of the store. *)
Record CallResult : Type := {
  success : bool;
  provider : option pystr;
  simplified_task : pystr;
  error : option pystr;
  field : option pystr;
  usage : option pyval;
  all_results : option nat
}.

(** [{"success": False, "provider": p, "error": e, "simplified_task": task}] *)
Definition failure (p : pystr) (e : pystr) (task : pystr) : CallResult :=
  {| success := false; provider := Some p; simplified_task := task;
     error := Some e; field := None; usage := None; all_results := None |}.

(** [{"success": True, "provider": p, "simplified_task": s, "usage": u}] *)
Definition succeeded (p : pystr) (s : pystr) (u : pyval) : CallResult :=
  {| success := true; provider := Some p; simplified_task := s;
     error := None; field := None; usage := Some u; all_results := None |}.

(** Dictionaries and lists are mutable objects reached through references:
    a reference is an index into the arena of its kind, and a list object
    holds references to dictionaries. *)
Record heap : Type := {
  dicts : list CallResult;
  lists : list (list nat)
}.

Definition empty_heap : heap := {| dicts := []; lists := [] |}.

Definition alloc_dict (h : heap) (d : CallResult) : heap * nat :=
  ({| dicts := dicts h ++ [d]; lists := lists h |}, length (dicts h)).

Definition alloc_list (h : heap) (l : list nat) : heap * nat :=
  ({| dicts := dicts h; lists := lists h ++ [l] |}, length (lists h)).

(** [results.append(r)] on the list object at [l] *)
Definition list_append (h : heap) (l : nat) (r : nat) : heap :=
  {| dicts := dicts h;
     lists := alter (fun items => items ++ [r]) l (lists h) |}.

(** The dictionary [r] once its key "all_results" is bound to the list
    object at [results]. *)
Definition put_all_results (results : nat) (r : CallResult) : CallResult :=
  {| success := success r; provider := provider r;
     simplified_task := simplified_task r; error := error r;
     field := field r; usage := usage r; all_results := Some results |}.

(** [d["all_results"] = results] on the dictionary object at [d] *)
Definition set_all_results (h : heap) (d : nat) (results : nat) : heap :=
  {| dicts := alter (put_all_results results) d (dicts h);
     lists := lists h |}.

(** ** Subscripts and methods on decoded JSON *)

Fixpoint assoc (d : list (pystr * pyval)) (k : pystr) : option pyval :=
  match d with
  | [] => None
  | (k', v) :: d' => if bool_decide (k' = k) then Some v else assoc d' k
  end.

Definition not_subscriptable (v : pyval) : exn :=
  Exn TypeError (u8 "'" ++ type_name v ++ u8 "' object is not subscriptable").

(** [v[k]] for a string literal [k] *)
Definition getitem_key (v : pyval) (k : pystr) : exc pyval :=
  match v with
  | PDict d =>
    match assoc d k with
    | Some x => Ok x
    | None => Raise (Exn KeyError (u8 "'" ++ k ++ u8 "'"))
    end
  | PList _ =>
    Raise (Exn TypeError (u8 "list indices must be integers or slices, not str"))
  | PStr _ =>
    Raise (Exn TypeError (u8 "string indices must be integers, not 'str'"))
  | _ => Raise (not_subscriptable v)
  end.

(** [v[0]]; the keys of a decoded JSON object are strings, so [0] is never
    one of them. *)
Definition getitem_0 (v : pyval) : exc pyval :=
  match v with
  | PList (x :: _) => Ok x
  | PList [] => Raise (Exn IndexError (u8 "list index out of range"))
  | PStr (c :: _) => Ok (PStr [c])
  | PStr [] => Raise (Exn IndexError (u8 "string index out of range"))
  | PDict _ => Raise (Exn KeyError (u8 "0"))
  | _ => Raise (not_subscriptable v)
  end.

(** [v.get(k, dflt)] *)
Definition py_get (v : pyval) (k : pystr) (dflt : pyval) : exc pyval :=
  match v with
  | PDict d => Ok (default dflt (assoc d k))
  | _ => Raise (Exn AttributeError
                  (u8 "'" ++ type_name v ++ u8 "' object has no attribute 'get'"))
  end.

(** [needle in v] for a string literal [needle] *)
Definition py_in (needle : pystr) (v : pyval) : exc bool :=
  match v with
  | PStr s => Ok (Str.contains s needle)
  | PList l =>
    Ok (existsb (fun x => match x with
                          | PStr s => bool_decide (s = needle)
                          | _ => false
                          end) l)
  | PDict d => Ok (bool_decide (is_Some (assoc d needle)))
  | _ => Raise (Exn TypeError
                  (u8 "argument of type '" ++ type_name v ++ u8 "' is not iterable"))
  end.

(** [config[k]] *)
Definition dict_item (config : gmap pystr pyval) (k : pystr) : exc pyval :=
  match config !! k with
  | Some v => Ok v
  | None => Raise (Exn KeyError (u8 "'" ++ k ++ u8 "'"))
  end.

(** ** The outside world: HTTP and SDK calls *)

(** [session.post(url, headers=headers, json=data)] under a
    [ClientTimeout(total=timeout)]. *)
Record HttpRequest : Type := {
  url : pyval;
  headers : list (pystr * pystr);
  json_data : pyval;
  total_timeout : pyval
}.

(** What the code reads of a response: [response.status],
    [await response.json()] and [await response.text()]. *)
Record HttpResponse : Type := {
  status : Z;
  json : exc pyval;
  text : exc pystr
}.

(** [AsyncOpenAI(api_key=, base_url=).chat.completions.create(...)] *)
Record SdkRequest : Type := {
  sdk_api_key : pyval;
  sdk_base_url : pyval;
  sdk_model : pyval;
  sdk_messages : pyval;
  sdk_max_tokens : pyval;
  sdk_temperature : pyval;
  sdk_extra_body : option pyval
}.

(** [completion.usage]: its three counters and [model_dump()]. *)
Record Usage : Type := {
  prompt_tokens : pyval;
  completion_tokens : pyval;
  total_tokens : pyval;
  model_dump : pyval
}.

(** What the code reads of a completion: [message.content] of every choice
    (it may be [None]) and [usage] (it may be [None]). *)
Record Completion : Type := {
  choices : list (option pystr);
  completion_usage : option Usage
}.

(** A program that talks to the outside world: it is done with a value, or
    it comes to a call and continues with the answer.  An answer [Raise e] is
    any exception raised between the [import] that opens the adapter's [try]
    block and the end of the request; it may have been raised before the
    request was made. *)
Inductive prog (A : Type) : Type :=
| Done (a : A)
| HttpPost (req : HttpRequest) (k : exc HttpResponse -> prog A)
| ChatCreate (req : SdkRequest) (k : exc Completion -> prog A).
Arguments Done {A} a.
Arguments HttpPost {A} req k.
Arguments ChatCreate {A} req k.

Fixpoint prog_bind {A B} (f : A -> prog B) (m : prog A) : prog B :=
  match m with
  | Done a => f a
  | HttpPost req k => HttpPost req (fun x => prog_bind f (k x))
  | ChatCreate req k => ChatCreate req (fun x => prog_bind f (k x))
  end.

#[global] Instance prog_ret : MRet prog := fun A a => Done a.
#[global] Instance prog_mbind : MBind prog := fun A B f m => prog_bind f m.

(** One call made to the outside world. *)
Inductive call : Type :=
| HttpCall (req : HttpRequest)
| SdkCall (req : SdkRequest).

(** The outside world answers every call.  When the answer is an
    exception, [fails_before] tells whether it was raised before
    [session.post] or [chat.completions.create] was reached: by the [import]
    at the head of the [try] block, or by the creation of the session or of
    the client.  Nothing is sent then. *)
Record env : Type := {
  http_post : HttpRequest -> exc HttpResponse;
  chat_create : SdkRequest -> exc Completion;
  fails_before : call -> bool
}.

(** The request of a call went out: the call was answered, or it failed
    once the request was made. *)
Definition made (w : env) (c : call) : bool :=
  match c with
  | HttpCall req =>
    match http_post w req with
    | Ok _ => true
    | Raise _ => negb (fails_before w c)
    end
  | SdkCall req =>
    match chat_create w req with
    | Ok _ => true
    | Raise _ => negb (fails_before w c)
    end
  end.

Definition record (w : env) (c : call) (calls : list call) : list call :=
  if made w c then c :: calls else calls.

(** Running a program in a world: its value and the calls it made, in
    order. *)
Fixpoint run {A} (w : env) (m : prog A) : A * list call :=
  match m with
  | Done a => (a, [])
  | HttpPost req k =>
    let '(a, calls) := run w (k (http_post w req)) in
    (a, record w (HttpCall req) calls)
  | ChatCreate req k =>
    let '(a, calls) := run w (k (chat_create w req)) in
    (a, record w (SdkCall req) calls)
  end.

(** [try: <build the request>; <post it>; <read the reply> except ...]: the
    shape shared by the HTTP adapters. *)
Definition http_call (request : exc HttpRequest)
    (on_response : HttpResponse -> exc CallResult)
    (handler : exn -> CallResult) : prog CallResult :=
  match request with
  | Raise e => Done (handler e)
  | Ok req =>
    HttpPost req (fun reply =>
      Done (match reply ≫= on_response with
            | Ok r => r
            | Raise e => handler e
            end))
  end.

(** The same shape for the SDK adapters. *)
Definition sdk_call (request : exc SdkRequest)
    (on_completion : Completion -> exc CallResult)
    (handler : exn -> CallResult) : prog CallResult :=
  match request with
  | Raise e => Done (handler e)
  | Ok req =>
    ChatCreate req (fun reply =>
      Done (match reply ≫= on_completion with
            | Ok r => r
            | Raise e => handler e
            end))
  end.

(** ** The provider adapters, [_call_deepseek] to [_call_tongyi] *)

Section Adapters.
Context `{PyBuiltins}.

Definition system_prompt : pystr :=
  u8 "你是一个专业的任务润色助手。请将用户提供的自然语言任务描述润色为简洁、明确、可执行的自动化指令。保留关键操作信息，去除冗余描述。".

(** The [messages] of deepseek, doubao, yuanbao and openai. *)
Definition chat_messages (task : pystr) : pyval :=
  PList [PDict [(u8 "role", PStr (u8 "system"));
                (u8 "content", PStr system_prompt)];
         PDict [(u8 "role", PStr (u8 "user"));
                (u8 "content", PStr (u8 "请润色以下任务：" ++ [10%N] ++ task))]].

(** The [messages] of wenxin and tongyi. *)
Definition polish_messages (task : pystr) : pyval :=
  PList [PDict [(u8 "role", PStr (u8 "user"));
                (u8 "content",
                 PStr (u8 "请将以下任务描述润色得更加清晰和易于理解，保持原意但表达更专业："
                       ++ [10%N; 10%N] ++ task))]].

(** The request of [_call_deepseek], [_call_doubao] and [_call_openai]; they
    differ in the default model only. *)
Definition chat_request (default_model : pystr) (task : pystr)
    (config : gmap pystr pyval) : exc HttpRequest :=
  api_key ← dict_item config (u8 "api_key");
  let headers := [(u8 "Authorization", u8 "Bearer " ++ py_str api_key);
                  (u8 "Content-Type", u8 "application/json")] in
  let data :=
    PDict [(u8 "model", dict_get config (u8 "model") (PStr default_model));
           (u8 "messages", chat_messages task);
           (u8 "max_tokens", dict_get config (u8 "max_tokens") (PInt 200));
           (u8 "temperature",
            dict_get config (u8 "temperature") (PFloat float_0_1))] in
  let timeout := dict_get config (u8 "timeout") (PInt 30) in
  base_url ← dict_item config (u8 "base_url");
  Ok {| url := PStr (py_str base_url ++ u8 "/chat/completions");
        headers := headers; json_data := data; total_timeout := timeout |}.

Definition api_failed (response : HttpResponse) (error_text : pystr) : pystr :=
  u8 "API调用失败 (" ++ Str.of_Z (status response) ++ u8 "): " ++ error_text.

(** What the three adapters do with the response: on status 200 the text is
    [result["choices"][0]["message"]["content"].strip()]. *)
Definition chat_response (name : pystr) (task : pystr)
    (response : HttpResponse) : exc CallResult :=
  if status response =? 200 then
    result ← json response;
    choices ← getitem_key result (u8 "choices");
    choice ← getitem_0 choices;
    message ← getitem_key choice (u8 "message");
    content ← getitem_key message (u8 "content");
    simplified ← py_strip content;
    usage ← py_get result (u8 "usage") (PDict []);
    Ok (succeeded name simplified usage)
  else
    error_text ← text response;
    Ok (failure name (api_failed response error_text) task).

Definition is_timeout (e : exn) : bool :=
  match exn_cls e with TimeoutError => true | _ => false end.

(** The handlers of [_call_doubao], [_call_openai], [_call_wenxin] and
    [_call_tongyi]. *)
Definition plain_handler (name : pystr) (task : pystr) (e : exn) : CallResult :=
  if is_timeout e then
    failure name (u8 "请求超时，请检查网络连接或增加超时时间") task
  else failure name (exn_msg e) task.

(** The handlers of [_call_deepseek], lines 446-475. *)
Definition deepseek_handler (task : pystr) (config : gmap pystr pyval) (e : exn)
  : CallResult :=
  if is_timeout e then
    failure (u8 "deepseek")
      (u8 "DeepSeek API请求超时(" ++ py_str (dict_get config (u8 "timeout") (PInt 30))
       ++ u8 "秒)，请检查网络或增加timeout设置") task
  else
    let error_str := exn_msg e in
    if Str.contains error_str (u8 "SSL")
       || Str.contains (str_lower error_str) (u8 "certificate") then
      failure (u8 "deepseek") (u8 "DeepSeek SSL证书验证失败: " ++ error_str) task
    else if Str.contains error_str (u8 "DNS")
            || Str.contains (str_lower error_str) (u8 "resolve") then
      failure (u8 "deepseek") (u8 "DeepSeek域名解析失败: " ++ error_str) task
    else
      failure (u8 "deepseek") (u8 "DeepSeek API调用异常: " ++ error_str) task.

Definition _call_deepseek (task : pystr) (config : gmap pystr pyval)
  : prog CallResult :=
  http_call (chat_request (u8 "deepseek-chat") task config)
            (chat_response (u8 "deepseek") task)
            (deepseek_handler task config).

Definition _call_doubao (task : pystr) (config : gmap pystr pyval)
  : prog CallResult :=
  http_call (chat_request (u8 "ep-20241219143532-qz8wg") task config)
            (chat_response (u8 "doubao") task)
            (plain_handler (u8 "doubao") task).

Definition _call_openai (task : pystr) (config : gmap pystr pyval)
  : prog CallResult :=
  http_call (chat_request (u8 "gpt-3.5-turbo") task config)
            (chat_response (u8 "openai") task)
            (plain_handler (u8 "openai") task).

(** [completion.choices[0].message.content.strip()] *)
Definition first_content (completion : Completion) : exc pystr :=
  match choices completion with
  | [] => Raise (Exn IndexError (u8 "list index out of range"))
  | None :: _ =>
    Raise (Exn AttributeError (u8 "'NoneType' object has no attribute 'strip'"))
  | Some content :: _ => Ok (Str.strip content)
  end.

Definition yuanbao_request (task : pystr) (config : gmap pystr pyval)
  : exc SdkRequest :=
  api_key ← dict_item config (u8 "api_key");
  base_url ← dict_item config (u8 "base_url");
  Ok {| sdk_api_key := api_key; sdk_base_url := base_url;
        sdk_model := dict_get config (u8 "model") (PStr (u8 "hunyuan-lite"));
        sdk_messages := chat_messages task;
        sdk_max_tokens := dict_get config (u8 "max_tokens") (PInt 200);
        sdk_temperature :=
          dict_get config (u8 "temperature") (PFloat float_0_1);
        sdk_extra_body :=
          Some (PDict [(u8 "enable_enhancement", PBool true)]) |}.

Definition yuanbao_completion (completion : Completion) : exc CallResult :=
  simplified ← first_content completion;
  let counter (get : Usage -> pyval) :=
    match completion_usage completion with
    | Some u => get u
    | None => PInt 0
    end in
  Ok (succeeded (u8 "yuanbao") simplified
        (PDict [(u8 "prompt_tokens", counter prompt_tokens);
                (u8 "completion_tokens", counter completion_tokens);
                (u8 "total_tokens", counter total_tokens)])).

(** The handler of [_call_yuanbao], lines 586-616. *)
Definition yuanbao_handler (task : pystr) (config : gmap pystr pyval) (e : exn)
  : CallResult :=
  let error_str := exn_msg e in
  if Str.contains error_str (u8 "401")
     || Str.contains (str_lower error_str) (u8 "unauthorized") then
    failure (u8 "yuanbao")
      (u8 "腾讯元宝API密钥无效或已过期，请检查API密钥是否正确") task
  else if Str.contains (str_lower error_str) (u8 "timeout") then
    failure (u8 "yuanbao")
      (u8 "腾讯元宝API请求超时(" ++ py_str (dict_get config (u8 "timeout") (PInt 30))
       ++ u8 "秒)，请检查网络或增加timeout设置") task
  else if Str.contains (str_lower error_str) (u8 "rate limit") then
    failure (u8 "yuanbao") (u8 "腾讯元宝API调用频率超限，请稍后重试") task
  else
    failure (u8 "yuanbao") (u8 "腾讯元宝API调用异常: " ++ error_str) task.

Definition _call_yuanbao (task : pystr) (config : gmap pystr pyval)
  : prog CallResult :=
  sdk_call (yuanbao_request task config) yuanbao_completion
           (yuanbao_handler task config).

(** The three adapters that are not implemented. *)
Definition _call_gemini (task : pystr) (config : gmap pystr pyval)
  : prog CallResult :=
  Done (failure (u8 "gemini") (u8 "Gemini API调用待实现") task).

Definition _call_claude (task : pystr) (config : gmap pystr pyval)
  : prog CallResult :=
  Done (failure (u8 "claude") (u8 "Claude API调用待实现") task).

Definition _call_glm (task : pystr) (config : gmap pystr pyval)
  : prog CallResult :=
  Done (failure (u8 "glm") (u8 "GLM API调用待实现") task).

Definition wenxin_request (task : pystr) (config : gmap pystr pyval)
  : exc HttpRequest :=
  let headers := [(u8 "Content-Type", u8 "application/json")] in
  let data :=
    [(u8 "messages", polish_messages task);
     (u8 "temperature", dict_get config (u8 "temperature") (PFloat float_0_1));
     (u8 "max_output_tokens", dict_get config (u8 "max_tokens") (PInt 200))] in
  base_url ← dict_item config (u8 "base_url");
  is_wenxin ← py_in (u8 "wenxin") base_url;
  data ← (if is_wenxin : bool then
            api_key ← dict_item config (u8 "api_key");
            Ok (data ++ [(u8 "access_token", api_key)])
          else Ok data);
  let timeout := dict_get config (u8 "timeout") (PInt 30) in
  Ok {| url := base_url; headers := headers; json_data := PDict data;
        total_timeout := timeout |}.

(** Lines 747-763: on status 200 the text is
    [result.get("result", "").strip()]. *)
Definition wenxin_response (task : pystr) (response : HttpResponse)
  : exc CallResult :=
  if status response =? 200 then
    result ← json response;
    answer ← py_get result (u8 "result") (PStr []);
    simplified ← py_strip answer;
    usage ← py_get result (u8 "usage") (PDict []);
    Ok (succeeded (u8 "wenxin") simplified usage)
  else
    error_text ← text response;
    Ok (failure (u8 "wenxin") (api_failed response error_text) task).

Definition _call_wenxin (task : pystr) (config : gmap pystr pyval)
  : prog CallResult :=
  http_call (wenxin_request task config) (wenxin_response task)
            (plain_handler (u8 "wenxin") task).

Definition tongyi_request (task : pystr) (config : gmap pystr pyval)
  : exc SdkRequest :=
  api_key ← dict_item config (u8 "api_key");
  base_url ← dict_item config (u8 "base_url");
  Ok {| sdk_api_key := api_key; sdk_base_url := base_url;
        sdk_model := dict_get config (u8 "model") (PStr (u8 "qwen-plus"));
        sdk_messages := polish_messages task;
        sdk_max_tokens := dict_get config (u8 "max_tokens") (PInt 200);
        sdk_temperature :=
          dict_get config (u8 "temperature") (PFloat float_0_1);
        sdk_extra_body := None |}.

Definition tongyi_completion (completion : Completion) : exc CallResult :=
  simplified ← first_content completion;
  Ok (succeeded (u8 "tongyi") simplified
        match completion_usage completion with
        | Some u => model_dump u
        | None => PDict []
        end).

Definition _call_tongyi (task : pystr) (config : gmap pystr pyval)
  : prog CallResult :=
  sdk_call (tongyi_request task config) tongyi_completion
           (plain_handler (u8 "tongyi") task).

(** The [if]/[elif] chain of [simplify_task_async], lines 264-288.  Its
    [else] branch has no provider left to take it. *)
Definition call_provider (provider : AIProvider) (task : pystr)
    (config : gmap pystr pyval) : prog CallResult :=
  match provider with
  | DEEPSEEK => _call_deepseek task config
  | DOUBAO => _call_doubao task config
  | YUANBAO => _call_yuanbao task config
  | OPENAI => _call_openai task config
  | GEMINI => _call_gemini task config
  | CLAUDE => _call_claude task config
  | GLM => _call_glm task config
  | WENXIN => _call_wenxin task config
  | TONGYI => _call_tongyi task config
  end.

(** ** [TaskSimplifier.simplify_task_async]

    No adapter raises, so the [except Exception] of lines 292-299 has nothing
    to catch.  [validation.get("error")] and [validation.get("field")] are
    copied as they are: the value of a key that is there, and [None] for a
    key that is not. *)
Definition simplify_task_async (configs : gmap AIProvider (gmap pystr pyval))
    (task_description : pystr) (provider : AIProvider) : prog CallResult :=
  match configs !! provider with
  | None =>
    Done (failure (value provider)
            (u8 "未找到" ++ value provider ++ u8 "平台的配置，请在API配置页面添加配置")
            task_description)
  | Some config =>
    let validation := _validate_config provider config in
    if negb (valid validation) then
      Done {| success := false; provider := Some (value provider);
              error := v_error validation; field := v_field validation;
              simplified_task := task_description;
              usage := None; all_results := None |}
    else call_provider provider task_description config
  end.

End Adapters.

(** ** [TaskSimplifier.simplify_task_multiple_providers] *)

(** [min(first :: rest, key=key)]: the running minimum is replaced only by a
    strictly smaller key, so the earliest minimal item is the one returned. *)
Fixpoint py_min {A} (key : A -> nat) (best : A) (rest : list A) : A :=
  match rest with
  | [] => best
  | x :: rest' =>
    if (key x <? key best)%nat then py_min key x rest' else py_min key best rest'
  end.

(** [await asyncio.gather] over the tasks: the results of the tasks in the order of
    the tasks.  The tasks share nothing, so their calls are laid out one
    task after the other. *)
Fixpoint gather {A} (tasks : list (prog A)) : prog (list A) :=
  match tasks with
  | [] => Done []
  | t :: tasks' => a ← t; rest ← gather tasks'; Done (a :: rest)
  end.

Section Multi.
Context `{PyBuiltins}.

(** Lines 347-356: an entry of [provider_results] that is an exception
    object is replaced by a failure dictionary under the name of its
    provider; a dictionary is kept. *)
Definition as_result (task_description : pystr)
    (entry : AIProvider * (CallResult + exn)) : CallResult :=
  match entry with
  | (_, inl d) => d
  | (p, inr e) => failure (value p) (exn_msg e) task_description
  end.

(** Lines 346-356: every entry becomes one dictionary object of the store,
    the one its task built or the one built here, and its reference is
    appended to the list object [results]. *)
Fixpoint collect (task_description : pystr)
    (entries : list (AIProvider * (CallResult + exn)))
    (results : nat) (h : heap) : heap :=
  match entries with
  | [] => h
  | entry :: entries' =>
    let '(h1, r) := alloc_dict h (as_result task_description entry) in
    collect task_description entries' results (list_append h1 results r)
  end.

(** [r.get("success")] through a reference *)
Definition is_successful (h : heap) (r : nat) : bool :=
  match dicts h !! r with
  | Some d => success d
  | None => false
  end.

(** [len(x.get("simplified_task", ""))] through a reference *)
Definition task_length (h : heap) (r : nat) : nat :=
  match dicts h !! r with
  | Some d => length (simplified_task d)
  | None => 0
  end.

(** Line 371: one line of the error summary. *)
Definition error_detail (d : CallResult) : pystr :=
  let provider := default (u8 "unknown") (provider d) in
  let error := default (u8 "未知错误") (error d) in
  u8 "• " ++ str_upper provider ++ u8 ": " ++ error.

(** Lines 373-375. *)
Definition error_summary (error_details : list pystr) : pystr :=
  let error_summary :=
    u8 "所有AI平台都失败了:" ++ [10%N; 10%N]
    ++ Str.join [10%N] (take 3 error_details) in
  if (3 <? length error_details)%nat then
    error_summary ++ [10%N; 10%N] ++ u8 "还有"
    ++ Str.of_Z (Z.of_nat (length error_details) - 3) ++ u8 "个平台的错误..."
  else error_summary.

(** Lines 340-382, from the gathered [provider_results] on: the reference of
    the dictionary returned, and the store it lives in. *)
Definition select_result (task_description : pystr)
    (providers : list AIProvider)
    (provider_results : list (CallResult + exn)) : nat * heap :=
  let '(h0, results) := alloc_list empty_heap [] in
  let h := collect task_description (zip providers provider_results) results h0 in
  let items := default [] (lists h !! results) in
  let successful_results := List.filter (is_successful h) items in
  match successful_results with
  | first :: rest =>
    let best_result := py_min (task_length h) first rest in
    (best_result, set_all_results h best_result results)
  | [] =>
    let error_details :=
      omap (fun r => error_detail <$> dicts h !! r) items in
    let '(h1, answer) :=
      alloc_dict h {| success := false; provider := None;
                      simplified_task := task_description;
                      error := Some (error_summary error_details);
                      field := None; usage := None;
                      all_results := Some results |} in
    (answer, h1)
  end.

(** [simplify_task_async] catches every exception, so [gather] returns
    dictionaries only. *)
Definition simplify_task_multiple_providers
    (configs : gmap AIProvider (gmap pystr pyval))
    (task_description : pystr) (providers : list AIProvider)
  : prog (nat * heap) :=
  provider_results ←
    gather (map (simplify_task_async configs task_description) providers);
  Done (select_result task_description providers (map inl provider_results)).

End Multi.

(** ** [TaskSimplifierManager]

    The store of the manager, [self.simplifier.configs], holds for each
    provider what [load_config] found under its name in the configuration
    file: any JSON value, since nothing checks that it is an object. *)

(** [provider in configs and configs[provider].get("api_key")]; a value
    that is not an object has no [get], and the [AttributeError] is raised
    to the caller. *)
Definition configured (configs : gmap AIProvider pyval)
    (provider : AIProvider) : exc pyval :=
  match configs !! provider with
  | None => Ok (PBool false)
  | Some config =>
    api_key ← py_get config (u8 "api_key") PNone;
    Ok (py_and (PBool true) (fun _ => api_key))
  end.

(** The loop of lines 917-920, and the comprehension of lines 882-884: the
    providers that pass the test, in the order of [providers]; the first
    test that raises ends it. *)
Fixpoint available_among (configs : gmap AIProvider pyval)
    (providers : list AIProvider) : exc (list AIProvider) :=
  match providers with
  | [] => Ok []
  | provider :: rest =>
    c ← configured configs provider;
    available ← available_among configs rest;
    Ok (if truthy c then provider :: available else available)
  end.

(** [get_available_providers], lines 912-922 *)
Definition get_available_providers (configs : gmap AIProvider pyval)
  : exc (list pystr) :=
  available ← available_among configs all_providers;
  Ok (fmap (M:=list) value available).

(** The loop of lines 929-932 from the dictionary [status] on. *)
Fixpoint status_among (configs : gmap AIProvider pyval)
    (providers : list AIProvider) (status : gmap pystr pyval)
  : exc (gmap pystr pyval) :=
  match providers with
  | [] => Ok status
  | provider :: rest =>
    c ← configured configs provider;
    status_among configs rest (<[value provider := c]> status)
  end.

(** [get_provider_status], lines 924-934: the dictionary [status]. *)
Definition get_provider_status (configs : gmap AIProvider pyval)
  : exc (gmap pystr pyval) :=
  status_among configs all_providers ∅.

(** ** A small runtime for worked examples

    It reads ASCII integer numerals only, and maps case on ASCII only. *)

Fixpoint digits_value (acc : Z) (s : pystr) : option Z :=
  match s with
  | [] => Some acc
  | c :: s' =>
    if ((0x30 <=? c) && (c <=? 0x39))%N
    then digits_value (10 * acc + (Z.of_N c - 0x30)) s'
    else None
  end.

Definition ascii_int_of_str (s : pystr) : option Z :=
  match Str.strip s with
  | [] => None
  | 0x2D%N :: (_ :: _) as ds => Z.opp <$> digits_value 0 ds
  | 0x2B%N :: (_ :: _) as ds => digits_value 0 ds
  | 0x2D%N :: [] | 0x2B%N :: [] => None
  | ds => digits_value 0 ds
  end.

#[global] Instance ascii_runtime : PyBuiltins := {|
  int_of_str := ascii_int_of_str;
  float_of_str := fun s =>
    match ascii_int_of_str s with
    | Some z => match float_of_Z z with Ok f => Some f | Raise _ => None end
    | None => None
    end;
  repr_float := fun _ => u8 "<float>";
  repr_obj := fun _ => u8 "<object>";
  unicode_upper := fun c => [c];
  str_lower := map Str.ascii_lower
|}.

(** ** The rest of [TaskSimplifier] and [TaskSimplifierManager] *)

(** [AIProvider(name)]: the member whose value is [name]; [None] stands
    for the [ValueError] raised when there is none. *)
Definition provider_of_value (name : pystr) : option AIProvider :=
  List.find (fun p => bool_decide (value p = name)) all_providers.

(** [d.items()]: one item for each key of the dictionary, in the order of
    the keys, with the value that lookup finds. *)
Fixpoint items_from (seen : list pystr) (d : list (pystr * pyval))
  : list (pystr * pyval) :=
  match d with
  | [] => []
  | (k, v) :: d' =>
    if bool_decide (k ∈ seen) then items_from seen d'
    else (k, v) :: items_from (k :: seen) d'
  end.

Definition dict_items (d : list (pystr * pyval)) : list (pystr * pyval) :=
  items_from [] d.

(** Lines 845-850: one round of the loop of [load_config].  A name that is
    not the value of a provider is skipped. *)
Definition load_entry (configs : gmap AIProvider pyval)
    (entry : pystr * pyval) : gmap AIProvider pyval :=
  match provider_of_value entry.1 with
  | Some provider => <[provider := entry.2]> configs
  | None => configs
  end.

(** [TaskSimplifierManager.load_config], lines 836-861: the [configs] of the
    simplifier it builds.  [file] is [None] when [ai_config.json] does not
    exist, and otherwise what opening and decoding it gives.  A top-level
    value that is not an object has no [items], and the [AttributeError]
    ends in the same [except] as a file that cannot be read. *)
Definition load_config (file : option (exc pyval)) : gmap AIProvider pyval :=
  match file with
  | Some (Ok (PDict config_data)) => foldl load_entry ∅ (dict_items config_data)
  | Some (Ok _) => ∅
  | Some (Raise _) => ∅
  | None => ∅
  end.

(** A value of the configuration file as a configuration dictionary, when
    it is a JSON object. *)
Definition as_config (v : pyval) : option (gmap pystr pyval) :=
  match v with
  | PDict d => Some (list_to_map d)
  | _ => None
  end.

(** The entries of the store that are objects, as the configurations that
    [TaskSimplifier] reads. *)
Definition dict_store (configs : gmap AIProvider pyval)
  : gmap AIProvider (gmap pystr pyval) :=
  omap as_config configs.

(** [available_providers] of lines 882-884. *)
Definition available_providers (configs : gmap AIProvider pyval)
  : exc (list AIProvider) :=
  available_among configs all_providers.

(** What [TaskSimplifierManager.simplify_task] returns: the dictionary of
    the single-provider path, or the reference and the store of the
    multi-provider path. *)
Inductive manager_result : Type :=
| Single (r : CallResult)
| Multi (answer : nat) (h : heap).

Section Manager.
Context `{PyBuiltins}.

(** [TaskSimplifier.simplify_task], lines 301-326, on the store of the
    manager: the asynchronous path run to completion on an event loop of its
    own.  The loop itself is not modelled, and so neither is the [except]
    for what it may raise.  For an entry of the store that is not an
    object, [config.get] at line 47 raises [AttributeError] inside the [try]
    of [_validate_config]; the handler of lines 223-228 makes it a
    validation failure, which lines 253-261 fold into the result. *)
Definition simplify_task (configs : gmap AIProvider pyval)
    (task_description : pystr) (provider : AIProvider) : prog CallResult :=
  match configs !! provider with
  | Some config =>
    match py_get config (u8 "api_key") (PStr []) with
    | Ok _ => simplify_task_async (dict_store configs) task_description provider
    | Raise e =>
      let validation :=
        invalid (u8 "配置验证异常: " ++ exn_msg e) (u8 "unknown") in
      Done {| success := false; provider := Some (value provider);
              error := v_error validation; field := v_field validation;
              simplified_task := task_description;
              usage := None; all_results := None |}
    end
  | None => simplify_task_async (dict_store configs) task_description provider
  end.

(** [TaskSimplifierManager.simplify_task], lines 863-910.  [provider] is
    [None] or a name; [AIProvider(provider)] is outside every [try], so its
    [ValueError] is raised to the caller, and so is the [AttributeError] of
    the availability test of lines 882-884 on an entry that is not an
    object.  Past that test every entry of the store is an object.  The
    event loop of lines 895-903 is not modelled; the multi-provider path
    itself raises nothing, so the [except] of lines 904-910 has nothing to
    catch here. *)
Definition manager_simplify_task (configs : gmap AIProvider pyval)
    (task_description : pystr) (provider : option pystr)
  : exc (prog manager_result) :=
  let chosen := match provider with
                | Some name => if truthy (PStr name) then Some name else None
                | None => None
                end in
  match chosen with
  | Some name =>
    match provider_of_value name with
    | Some p => Ok (r ← simplify_task configs task_description p; Done (Single r))
    | None =>
      Raise (Exn ValueError
               (repr_obj (PStr name) ++ u8 " is not a valid AIProvider"))
    end
  | None =>
    available_providers ← available_providers configs;
    if negb (truthy (PList (map (fun p => PStr (value p)) available_providers)))
    then
      Ok (Done (Single {| success := false; provider := None;
                          simplified_task := task_description;
                          error := Some (u8 "没有配置可用的AI平台");
                          field := None; usage := None;
                          all_results := None |}))
    else
      Ok ('(answer, h) ←
            simplify_task_multiple_providers (dict_store configs)
              task_description available_providers;
          Done (Multi answer h))
  end.

End Manager.

(** ** Vocabulary of the properties *)

(** A string that is empty or whitespace only. *)
Definition blank (s : pystr) : Prop := forallb Str.isspace s = true.

(** A validation result that is not valid carries a non-empty [error] and
    a [field]. *)
Definition well_formed (r : ValidationResult) : Prop :=
  valid r = false ->
  exists e f, v_error r = Some e /\ e <> [] /\ v_field r = Some f.

Definition returns_well_formed {A} (c : flow ValidationResult A) : Prop :=
  forall r, c = Return r -> well_formed r.








(** *** The rules of a valid configuration

    What the checks of [_validate_config] ask of the stripped [api_key],
    [base_url] and [model] of each provider. *)

Definition key_rule (p : AIProvider) (api_key : pystr) : bool :=
  negb (bool_decide (api_key = []))
  && match p with
     | DEEPSEEK | OPENAI =>
       Str.startswith api_key (u8 "sk-") && (20 <=? length api_key)%nat
     | DOUBAO => (16 <=? length api_key)%nat
     | _ => true
     end.

Definition url_rule (p : AIProvider) (base_url : pystr) : bool :=
  negb (bool_decide (base_url = []))
  && (Str.startswith base_url (u8 "http://")
      || Str.startswith base_url (u8 "https://"))
  && match p with
     | DEEPSEEK => Str.contains base_url (u8 "api.deepseek.com")
     | OPENAI => Str.contains base_url (u8 "api.openai.com")
     | DOUBAO => Str.contains base_url (u8 "volcengine.com")
     | _ => true
     end.

Definition model_rule (p : AIProvider) (model : pystr) : bool :=
  negb (bool_decide (model = []))
  && match p with
     | DEEPSEEK => Str.startswith model (u8 "deepseek-")
     | OPENAI =>
       existsb (fun vm => Str.startswith model vm)
         [u8 "gpt-3.5-turbo"; u8 "gpt-4"; u8 "gpt-4-turbo"; u8 "gpt-4o"]
     | DOUBAO =>
       Str.startswith model (u8 "ep-") || Str.startswith model (u8 "doubao-")
     | _ => true
     end.

(** A string value under key [k] whose stripped form satisfies [rule]. *)
Definition string_field (config : gmap pystr pyval) (k : pystr)
    (rule : pystr -> bool) : Prop :=
  exists s, config !! k = Some (PStr s) /\ rule (Str.strip s) = true.

(** What every result of a provider call keeps: the name of its provider;
    on failure the task unchanged and an error; on success no error and a
    usage. *)
Definition sound_result (name task : pystr) (r : CallResult) : Prop :=
  provider r = Some name
  /\ field r = None /\ all_results r = None
  /\ (success r = false -> simplified_task r = task /\ is_Some (error r)
                           /\ usage r = None)
  /\ (success r = true -> error r = None /\ is_Some (usage r)).

(** The three providers whose adapter is not implemented. *)
Definition is_stub (p : AIProvider) : bool :=
  match p with
  | GEMINI | CLAUDE | GLM => true
  | _ => false
  end.

(** The providers whose adapter posts an HTTP request. *)
Definition is_http (p : AIProvider) : bool :=
  match p with
  | DEEPSEEK | DOUBAO | OPENAI | WENXIN => true
  | _ => false
  end.

(** ** Data of the worked examples *)

(** A deepseek configuration that passes validation. *)
Definition deepseek_config : gmap pystr pyval :=
  list_to_map [(u8 "api_key", PStr (u8 "sk-0123456789abcdefghij"));
               (u8 "base_url", PStr (u8 "https://api.deepseek.com"));
               (u8 "model", PStr (u8 "deepseek-chat"))].

(** The same configuration as the manager stores it. *)
Definition deepseek_entry : pyval :=
  PDict [(u8 "api_key", PStr (u8 "sk-0123456789abcdefghij"));
         (u8 "base_url", PStr (u8 "https://api.deepseek.com"));
         (u8 "model", PStr (u8 "deepseek-chat"))].

(** A wenxin configuration that passes validation. *)
Definition wenxin_config : gmap pystr pyval :=
  list_to_map [(u8 "api_key", PStr (u8 "token"));
               (u8 "base_url", PStr (u8 "https://qianfan.example/chat"));
               (u8 "model", PStr (u8 "ernie"))].


(** A world in which every HTTP request is answered with status 200 and a
    chat completion whose text has whitespace around it. *)
Definition polished_world : env :=
  {| http_post := fun _ =>
       Ok {| status := 200;
             json := Ok (PDict
               [(u8 "choices",
                 PList [PDict [(u8 "message",
                   PDict [(u8 "content",
                           PStr (u8 "  打开微信，给张三发送“你好” "))])]]);
                (u8 "usage", PDict [(u8 "total_tokens", PInt 42)])]);
             text := Ok [] |};
     chat_create := fun _ =>
       Ok {| choices := [Some (u8 "打开微信")]; completion_usage := None |};
     fails_before := fun _ => false |}.

(** A configuration whose [api_key] is a number. *)
Definition numeric_key_config : gmap pystr pyval :=
  <[u8 "api_key" := PInt 5]> deepseek_config.

(** Results of providers: two successes with texts of 30 and of 12
    characters, and a failure. *)
Definition long_success : CallResult :=
  succeeded (u8 "deepseek") (u8 "012345678901234567890123456789") (PDict []).

Definition short_success : CallResult :=
  succeeded (u8 "doubao") (u8 "打开微信给张三发送你好呀") (PDict []).

Definition stub_failure (p : AIProvider) : CallResult :=
  failure (value p) (u8 "not implemented") (u8 "task").


(** A world in which every HTTP request is answered with status 503 and
    the body "busy", and every SDK call fails. *)
Definition busy_world : env :=
  {| http_post := fun _ =>
       Ok {| status := 503; json := Raise (Exn ValueError (u8 "no JSON"));
             text := Ok (u8 "busy") |};
     chat_create := fun _ => Raise (Exn OtherException (u8 "busy"));
     fails_before := fun _ => false |}.

(** A world in which every call runs into its timeout. *)
Definition timeout_world : env :=
  {| http_post := fun _ => Raise (Exn TimeoutError []);
     chat_create := fun _ => Raise (Exn TimeoutError []);
     fails_before := fun _ => false |}.

(** A world without the libraries: every [import] fails, and no request is
    made. *)
Definition bare_world : env :=
  {| http_post := fun _ =>
       Raise (Exn OtherException (u8 "No module named 'aiohttp'"));
     chat_create := fun _ =>
       Raise (Exn OtherException (u8 "No module named 'openai'"));
     fails_before := fun _ => true |}.

(** The deepseek configuration with whitespace around its key. *)
Definition padded_key_config : gmap pystr pyval :=
  <[u8 "api_key" := PStr ([32; 32]%N ++ u8 "sk-0123456789abcdefghij" ++ [10%N])]>
    deepseek_config.

(** The deepseek configuration with a key of two spaces. *)
Definition blank_key_config : gmap pystr pyval :=
  <[u8 "api_key" := PStr [32; 32]%N]> deepseek_config.

(** The entry of a provider whose key is two spaces. *)
Definition blank_key_entry : pyval :=
  PDict [(u8 "api_key", PStr [32; 32]%N);
         (u8 "base_url", PStr (u8 "https://api.deepseek.com"));
         (u8 "model", PStr (u8 "deepseek-chat"))].

(** A store with one entry that is an object and one that is a string. *)
Definition mixed_store : gmap AIProvider pyval :=
  {[ DEEPSEEK := deepseek_entry; GLM := PStr (u8 "later") ]}.

(** The deepseek configuration with a timeout of 300.5 seconds,
    [601 * 2^-1]. *)
Definition fractional_timeout_config : gmap pystr pyval :=
  <[u8 "timeout" := PFloat (S754_finite false 601 (-1))]> deepseek_config.

(** A configuration file with an entry for deepseek and one under a name
    that is not a provider. *)
Definition sample_file : list (pystr * pyval) :=
  [(u8 "deepseek", PDict [(u8 "api_key", PStr (u8 "sk-0123456789abcdefghij"))]);
   (u8 "mistral", PDict [(u8 "api_key", PStr (u8 "k"))])].

(** * Properties *)

(** ** Strings *)

Lemma lstrip_nil_iff s : Str.lstrip s = [] <-> forallb Str.isspace s = true.
Proof.
  induction s as [|c s IH]; simpl; [done|].
  destruct (Str.isspace c); simpl; [done|]. split; discriminate.
Qed.

Lemma lstrip_head s c r : Str.lstrip s = c :: r -> Str.isspace c = false.
Proof.
  induction s as [|a s IH]; simpl; [discriminate|].
  destruct (Str.isspace a) eqn:Ha; [done|]. by intros [= <- _].
Qed.

Lemma forallb_rev {A} (f : A -> bool) l : forallb f (rev l) = forallb f l.
Proof.
  induction l as [|a l IH]; simpl; [done|].
  rewrite forallb_app, IH. simpl. rewrite andb_true_r. apply andb_comm.
Qed.

Lemma rev_nil_inv {A} (l : list A) : rev l = [] -> l = [].
Proof. intros E. apply (f_equal (@rev A)) in E. by rewrite rev_involutive in E. Qed.

(** [strip] leaves nothing exactly of the strings that are all whitespace. *)
Lemma strip_nil_iff s : Str.strip s = [] <-> forallb Str.isspace s = true.
Proof.
  unfold Str.strip, Str.rstrip. split.
  - intros E%rev_nil_inv%lstrip_nil_iff. rewrite forallb_rev in E.
    apply lstrip_nil_iff. destruct (Str.lstrip s) as [|c r] eqn:L; [done|].
    apply lstrip_head in L. simpl in E. by rewrite L in E.
  - intros E%lstrip_nil_iff. by rewrite E.
Qed.

(** Evaluation of the string literals of a goal. *)
Ltac eval_literals :=
  repeat match goal with
         | |- context [Str.utf8_decode ?s] =>
           let v := eval vm_compute in (Str.utf8_decode s) in
           change (Str.utf8_decode s) with v
         | H : context [Str.utf8_decode ?s] |- _ =>
           let v := eval vm_compute in (Str.utf8_decode s) in
           change (Str.utf8_decode s) with v in H
         end.

(** A message that holds a literal is not empty. *)
Ltac nonempty :=
  let E := fresh in
  intros E; apply (f_equal (@length N)) in E;
  repeat rewrite length_app in E; eval_literals; simpl in E; lia.

(** ** Control flow *)

Lemma flow_bind_return {R A B} (m : flow R A) (f : A -> flow R B) r :
  m ≫= f = Return r -> m = Return r \/ exists a, m = Next a /\ f a = Return r.
Proof. destruct m; unfold mbind, flow_bind; naive_solver. Qed.

Lemma flow_bind_next {R A B} (m : flow R A) (f : A -> flow R B) b :
  m ≫= f = Next b -> exists a, m = Next a /\ f a = Next b.
Proof. destruct m; unfold mbind, flow_bind; naive_solver. Qed.

Lemma flow_bind_throw {R A B} (m : flow R A) (f : A -> flow R B) e :
  m ≫= f = Throw e -> m = Throw e \/ exists a, m = Next a /\ f a = Throw e.
Proof. destruct m; unfold mbind, flow_bind; naive_solver. Qed.

Lemma flow_bind_assoc {R A B C} (m : flow R A) (f : A -> flow R B)
    (g : B -> flow R C) :
  (m ≫= f) ≫= g = m ≫= (fun a => f a ≫= g).
Proof. by destruct m. Qed.

(** ** Validation *)

Section ValidationFacts.
Context `{PyBuiltins}.

Ltac unfold_flow :=
  unfold mbind, mret, flow_bind, flow_ret, exc_bind, exc_ret, lift in *.

Lemma invalid_well_formed e f : e <> [] -> well_formed (invalid e f).
Proof. intros He _. by exists e, f. Qed.

Lemma valid_result_well_formed : well_formed valid_result.
Proof. intros [=]. Qed.

Lemma returns_well_formed_bind {A B} (m : flow ValidationResult A)
    (f : A -> flow ValidationResult B) :
  returns_well_formed m -> (forall a, returns_well_formed (f a)) ->
  returns_well_formed (m ≫= f).
Proof.
  intros Hm Hf r [E|(a & _ & E)]%flow_bind_return; [by apply Hm|by apply (Hf a)].
Qed.

Ltac solve_check :=
  intros r; unfold_flow;
  repeat case_match; try discriminate;
  intros [= <-]; apply invalid_well_formed; nonempty.

Lemma check_api_key_wf p config : returns_well_formed (check_api_key p config).
Proof. unfold check_api_key. solve_check. Qed.

Lemma check_key_format_wf p k : returns_well_formed (check_key_format p k).
Proof. unfold check_key_format. solve_check. Qed.

Lemma check_base_url_wf p config : returns_well_formed (check_base_url p config).
Proof. unfold check_base_url. solve_check. Qed.

Lemma check_url_substring_wf p u : returns_well_formed (check_url_substring p u).
Proof. unfold check_url_substring. solve_check. Qed.

Lemma check_model_wf p config : returns_well_formed (check_model p config).
Proof. unfold check_model. solve_check. Qed.

Lemma check_timeout_wf config : returns_well_formed (check_timeout config).
Proof. unfold check_timeout, timeout_range_error, timeout_format_error. solve_check. Qed.

Lemma check_max_tokens_wf config : returns_well_formed (check_max_tokens config).
Proof. unfold check_max_tokens. solve_check. Qed.

Lemma check_temperature_wf config : returns_well_formed (check_temperature config).
Proof. unfold check_temperature. solve_check. Qed.

Lemma validate_body_wf p config : returns_well_formed (validate_body p config).
Proof.
  unfold validate_body.
  repeat first
    [ apply check_api_key_wf | apply check_key_format_wf
    | apply check_base_url_wf | apply check_url_substring_wf
    | apply check_model_wf | apply check_timeout_wf
    | apply check_max_tokens_wf | apply check_temperature_wf
    | apply returns_well_formed_bind; [|intros ?] ].
  intros r [= <-]. apply valid_result_well_formed.
Qed.

(** The body never falls off its end: its last statement is a [return]. *)
Lemma validate_body_not_next p config r : validate_body p config <> Next r.
Proof.
  unfold validate_body. intros E.
  repeat (apply flow_bind_next in E as (? & _ & E)). discriminate.
Qed.

(** The body is the checks on [api_key], [base_url] and [model], then the
    three numeric checks. *)
Lemma validate_body_split p config :
  validate_body p config =
  (checks_before_timeout p config;; check_timeout config;;
   check_max_tokens config;; check_temperature config;; Return valid_result).
Proof.
  unfold validate_body, checks_before_timeout.
  destruct (check_api_key p config); [|done..]. cbn.
  destruct (check_key_format p a); [|done..]. cbn.
  destruct (check_base_url p config); [|done..]. cbn.
  destruct (check_url_substring p a1); [|done..]. cbn.
  by destruct (check_model p config).
Qed.

Lemma validate_config_well_formed p config :
  well_formed (_validate_config p config).
Proof.
  unfold _validate_config.
  destruct (validate_body p config) as [r|r|e] eqn:E.
  - by apply validate_body_not_next in E.
  - by apply validate_body_wf in E.
  - apply invalid_well_formed. nonempty.
Qed.

(** C4.  [_validate_config] is a function into validation results: for
    every provider and every configuration it returns one and raises
    nothing.  What its body returns is returned as it is; an exception raised
    in the body becomes [{valid: false, error: "配置验证异常: " + str(e),
    field: "unknown"}]; and every result that is not valid carries a
    non-empty [error] and a [field]. *)
Theorem validate_config_never_raises p config :
  (forall r, validate_body p config = Return r -> _validate_config p config = r)
  /\ (forall e, validate_body p config = Throw e ->
       _validate_config p config
       = invalid (u8 "配置验证异常: " ++ exn_msg e) (u8 "unknown"))
  /\ (valid (_validate_config p config) = false ->
      exists e f, v_error (_validate_config p config) = Some e /\ e <> []
                  /\ v_field (_validate_config p config) = Some f).
Proof.
  split; [|split].
  - unfold _validate_config. by intros r ->.
  - unfold _validate_config. by intros e ->.
  - apply validate_config_well_formed.
Qed.

(** C5.  The checks run in the order api_key presence, key format, base_url
    presence and scheme, URL substring, model, timeout, max_tokens,
    temperature, and the first one that does not pass decides the result.
    So a configuration whose [api_key] is missing, empty or whitespace only
    is rejected with field "api_key", whatever its other fields hold. *)
Theorem validation_order_api_key_first p config :
  validate_body p config = (first_stop (checks p config);; Return valid_result)
  /\ (config !! u8 "api_key" = None
      \/ (exists s, config !! u8 "api_key" = Some (PStr s) /\ blank s) ->
      _validate_config p config
      = invalid (value p ++ u8 "平台的API密钥为空，请设置有效的API密钥") (u8 "api_key")).
Proof.
  split.
  - unfold validate_body, checks, first_stop, check_api_key, check_base_url.
    unfold_flow.
    destruct (py_strip (dict_get config (u8 "api_key") _)) as [k|e]; [|done].
    destruct (truthy (PStr k)); [|done]. cbv beta iota delta [negb].
    destruct (check_key_format p k) as [[]| |]; [|done..].
    destruct (py_strip (dict_get config (u8 "base_url") _)) as [u|e]; [|done].
    destruct (truthy (PStr u)); [|done]. cbv beta iota delta [negb].
    destruct (_ || _); [|done]. cbv beta iota.
    destruct (check_url_substring p u) as [[]| |]; [|done..].
    destruct (check_model p config) as [[]| |]; [|done..].
    destruct (check_timeout config) as [[]| |]; [|done..].
    destruct (check_max_tokens config) as [[]| |]; [|done..].
    by destruct (check_temperature config) as [[]| |].
  - intros Hkey. unfold _validate_config, validate_body, check_api_key.
    assert (py_strip (dict_get config (u8 "api_key") (PStr [])) = Ok []) as ->.
    { unfold dict_get. destruct Hkey as [->|(s & -> & Hs)]; simpl; [done|].
      f_equal. by apply strip_nil_iff. }
    done.
Qed.

(** *** The numeric checks *)

Lemma validate_after_checks p config :
  checks_before_timeout p config = Next tt ->
  _validate_config p config =
  match (check_timeout config;; check_max_tokens config;;
         check_temperature config;; Return valid_result) with
  | Next r | Return r => r
  | Throw e => invalid (u8 "配置验证异常: " ++ exn_msg e) (u8 "unknown")
  end.
Proof.
  intros E. unfold _validate_config. by rewrite validate_body_split, E.
Qed.










(** *** Defaults *)

Lemma dict_get_fill k dflt config :
  dict_get (fill k dflt config) k dflt = dict_get config k dflt.
Proof.
  unfold dict_get, fill. destruct (config !! k) eqn:E; [by rewrite E|].
  by rewrite lookup_insert_eq.
Qed.

Lemma dict_get_fill_ne k k' dflt dflt' config :
  k <> k' -> dict_get (fill k dflt config) k' dflt' = dict_get config k' dflt'.
Proof.
  intros Hne. unfold dict_get, fill. destruct (config !! k); [done|].
  by rewrite lookup_insert_ne.
Qed.

Ltac keys_differ := let E := fresh in intros E; vm_compute in E; discriminate.

(** A default written into the configuration changes no [get]: neither the
    one of its own key, which would have produced it, nor any other. *)
Lemma dict_get_with_defaults config k dflt :
  (k = u8 "timeout" -> dflt = PInt 30) ->
  (k = u8 "max_tokens" -> dflt = PInt 200) ->
  (k = u8 "temperature" -> dflt = PFloat float_0_1) ->
  dict_get (with_defaults config) k dflt = dict_get config k dflt.
Proof.
  intros H1 H2 H3. unfold with_defaults.
  destruct (decide (u8 "temperature" = k)) as [<-|?].
  { rewrite H3 by done. rewrite dict_get_fill.
    rewrite !dict_get_fill_ne by keys_differ. done. }
  rewrite dict_get_fill_ne by done.
  destruct (decide (u8 "max_tokens" = k)) as [<-|?].
  { rewrite H2 by done. rewrite dict_get_fill.
    rewrite !dict_get_fill_ne by keys_differ. done. }
  rewrite dict_get_fill_ne by done.
  destruct (decide (u8 "timeout" = k)) as [<-|?].
  { rewrite H1 by done. by rewrite dict_get_fill. }
  by rewrite dict_get_fill_ne.
Qed.

Lemma validate_body_with_defaults p config :
  validate_body p (with_defaults config) = validate_body p config.
Proof.
  unfold validate_body, check_api_key, check_base_url, check_model,
    check_timeout, check_max_tokens, check_temperature.
  rewrite !dict_get_with_defaults; [done|try done; keys_differ..].
Qed.

(** C10.  [timeout], [max_tokens] and [temperature] are optional.  A key
    that is left out passes its check, which reads the default 30, 200 or
    0.1 in its place; so a configuration that passes the checks on api_key,
    base_url and model is valid when each of the three keys is left out or
    passes its own check, in particular when all three are left out; and
    validating a configuration is validating it with the defaults written in
    for the keys it leaves out. *)
Theorem numeric_keys_default p config :
  checks_before_timeout p config = Next tt ->
  (config !! u8 "timeout" = None -> check_timeout config = Next tt)
  /\ (config !! u8 "max_tokens" = None -> check_max_tokens config = Next tt)
  /\ (config !! u8 "temperature" = None -> check_temperature config = Next tt)
  /\ (config !! u8 "timeout" = None \/ check_timeout config = Next tt ->
      config !! u8 "max_tokens" = None \/ check_max_tokens config = Next tt ->
      config !! u8 "temperature" = None \/ check_temperature config = Next tt ->
      _validate_config p config = valid_result)
  /\ _validate_config p config
     = _validate_config p
         (fill (u8 "temperature") (PFloat float_0_1)
            (fill (u8 "max_tokens") (PInt 200)
               (fill (u8 "timeout") (PInt 30) config))).
Proof.
  intros Hpre.
  assert (Ht : config !! u8 "timeout" = None -> check_timeout config = Next tt).
  { intros E. unfold check_timeout, dict_get. by rewrite E. }
  assert (Hm : config !! u8 "max_tokens" = None ->
               check_max_tokens config = Next tt).
  { intros E. unfold check_max_tokens, dict_get. by rewrite E. }
  assert (Hf : config !! u8 "temperature" = None ->
               check_temperature config = Next tt).
  { intros E. unfold check_temperature, dict_get. by rewrite E. }
  repeat split; try done.
  - intros E1 E2 E3. rewrite (validate_after_checks _ _ Hpre).
    assert (check_timeout config = Next tt) as -> by (by destruct E1; auto).
    assert (check_max_tokens config = Next tt) as -> by (by destruct E2; auto).
    assert (check_temperature config = Next tt) as -> by (by destruct E3; auto).
    done.
  - change (fill _ _ (fill _ _ (fill _ _ config))) with (with_defaults config).
    unfold _validate_config. by rewrite validate_body_with_defaults.
Qed.

End ValidationFacts.

(** ** Adapters and the single-provider path *)

Section AdapterFacts.
Context `{PyBuiltins}.

Example float_0_1_nearest :
  Z.abs (10 * 0x1999999999999A - 2 ^ 56) <= 5
  /\ 2 ^ 52 <= 0x1999999999999A < 2 ^ 53.
Proof. lia. Qed.

Lemma run_http_call w request on_response handler :
  (run w (http_call request on_response handler)).1
  = match request with
    | Raise e => handler e
    | Ok req =>
      match http_post w req ≫= on_response with
      | Ok r => r
      | Raise e => handler e
      end
    end.
Proof. by destruct request. Qed.

Lemma run_sdk_call w request on_completion handler :
  (run w (sdk_call request on_completion handler)).1
  = match request with
    | Raise e => handler e
    | Ok req =>
      match chat_create w req ≫= on_completion with
      | Ok r => r
      | Raise e => handler e
      end
    end.
Proof. by destruct request. Qed.







Lemma exc_bind_ok {A B} (m : exc A) (f : A -> exc B) b :
  m ≫= f = Ok b -> exists a, m = Ok a /\ f a = Ok b.
Proof. destruct m; unfold mbind, exc_bind; naive_solver. Qed.








(** *** The reply behind a success *)
















(** C6.  A provider without an entry in the configurations is answered at
    once: the result is a failure that names the provider whose
    configuration is missing, carries the task unchanged and has no
    [field]; no validation result enters it, and no call is made to the
    outside world. *)
Theorem unconfigured_provider_rejected configs task p :
  configs !! p = None ->
  let r := failure (value p)
             (u8 "未找到" ++ value p ++ u8 "平台的配置，请在API配置页面添加配置") task in
  simplify_task_async configs task p = Done r
  /\ (forall w, run w (simplify_task_async configs task p) = (r, []))
  /\ success r = false /\ simplified_task r = task /\ field r = None
  /\ (exists e, error r = Some e /\ Str.contains e (value p) = true).
Proof.
  intros Hp r. unfold simplify_task_async. rewrite Hp.
  repeat split; try done.
  eexists. split; [done|]. by destruct p; vm_compute.
Qed.

(** C9.  When the configuration of the provider fails validation, the
    result is a failure whose [error] and [field] are those of the
    validation result, both present, and whose [simplified_task] is the
    task description unchanged; no call is made. *)
Theorem invalid_config_folded configs task p config :
  configs !! p = Some config ->
  valid (_validate_config p config) = false ->
  simplify_task_async configs task p
  = Done {| success := false; provider := Some (value p);
            simplified_task := task;
            error := v_error (_validate_config p config);
            field := v_field (_validate_config p config);
            usage := None; all_results := None |}
  /\ (exists e f, v_error (_validate_config p config) = Some e
                  /\ v_field (_validate_config p config) = Some f)
  /\ (forall w, simplified_task (run w (simplify_task_async configs task p)).1
                = task).
Proof.
  intros Hp Hv. unfold simplify_task_async. rewrite Hp, Hv. simpl.
  repeat split.
  destruct (validate_config_well_formed p config Hv) as (e & f & ? & _ & ?).
  eauto.
Qed.

End AdapterFacts.

(** ** The multi-provider path *)





Section MultiFacts.
Context `{PyBuiltins}.







(** The summary of the code is the combined message of the bullet
    lines. *)
Lemma provider_of_value_name name p :
  provider_of_value name = Some p -> name = value p.
Proof.
  unfold provider_of_value. intros [_ E]%find_some.
  by apply bool_decide_eq_true in E.
Qed.




(** Running a sequence: the calls of the first part, then those of the
    second. *)
Lemma run_bind {A B} w (m : prog A) (f : A -> prog B) :
  run w (m ≫= f)
  = ((run w (f (run w m).1)).1, (run w m).2 ++ (run w (f (run w m).1)).2).
Proof.
  unfold mbind, prog_mbind.
  induction m as [a|req k IH|req k IH]; simpl.
  - by destruct (run w (f a)).
  - rewrite IH. destruct (run w (k (http_post w req))). simpl.
    unfold record. by destruct (made w _).
  - rewrite IH. destruct (run w (k (chat_create w req))). simpl.
    unfold record. by destruct (made w _).
Qed.

Lemma run_gather {A} w (tasks : list (prog A)) :
  (run w (gather tasks)).1 = map (fun t => (run w t).1) tasks.
Proof.
  induction tasks as [|t tasks IH]; simpl; [done|].
  rewrite run_bind. simpl. rewrite run_bind. simpl. by rewrite IH.
Qed.

(** The multi-provider path returns what the selection makes of the results
    of the single-provider path, one for each provider in their order. *)
Lemma multiple_providers_select w configs task providers :
  (run w (simplify_task_multiple_providers configs task providers)).1
  = select_result task providers
      (map (fun p => inl (run w (simplify_task_async configs task p)).1)
           providers).
Proof.
  unfold simplify_task_multiple_providers. rewrite run_bind. simpl.
  rewrite run_gather. by rewrite !map_map.
Qed.

End MultiFacts.

(** ** The manager *)

Lemma value_inj p q : value p = value q -> p = q.
Proof. destruct p, q; intros E; try done; vm_compute in E; discriminate. Qed.

Lemma all_providers_elem p : p ∈ all_providers.
Proof.
  destruct p; unfold all_providers;
    repeat first [apply list_elem_of_here | apply list_elem_of_further].
Qed.

(** The test of a provider: [False] without an entry, the value of
    [api_key] itself for an entry that is an object ([None] when the key is
    missing), and [AttributeError] for any other entry. *)
Lemma configured_absent configs p :
  configs !! p = None -> configured configs p = Ok (PBool false).
Proof. unfold configured. by intros ->. Qed.

Lemma configured_object configs p d :
  configs !! p = Some (PDict d) ->
  configured configs p = Ok (default PNone (assoc d (u8 "api_key"))).
Proof. unfold configured. by intros ->. Qed.

Lemma configured_other configs p v :
  configs !! p = Some v -> (forall d, v <> PDict d) ->
  configured configs p
  = Raise (Exn AttributeError
             (u8 "'" ++ type_name v ++ u8 "' object has no attribute 'get'")).
Proof.
  unfold configured. intros -> Hv. destruct v; try done. by destruct (Hv d).
Qed.

Lemma configured_cases configs p :
  (configs !! p = None /\ configured configs p = Ok (PBool false))
  \/ (exists d, configs !! p = Some (PDict d)
               /\ configured configs p
                  = Ok (default PNone (assoc d (u8 "api_key"))))
  \/ (exists v, configs !! p = Some v /\ (forall d, v <> PDict d)
               /\ configured configs p
                  = Raise (Exn AttributeError
                             (u8 "'" ++ type_name v
                              ++ u8 "' object has no attribute 'get'"))).
Proof.
  destruct (configs !! p) as [v|] eqn:E.
  - assert ((exists d, v = PDict d) \/ (forall d, v <> PDict d)) as [[d ->]|Hv]
      by (destruct v; eauto).
    + right. left. exists d. split; [done|]. by apply configured_object.
    + right. right. exists v. split; [done|].
      split; [done|]. by apply configured_other.
  - left. split; [done|]. by apply configured_absent.
Qed.

(** The status dictionary after the loop: the outcome of the test for each
    provider of the loop, and what was there before for any other name. *)
Lemma status_among_lookup configs ps : forall st status,
  status_among configs ps st = Ok status ->
  forall p,
    (p ∈ ps -> exists c, configured configs p = Ok c
                         /\ status !! value p = Some c)
    /\ (p ∉ ps -> status !! value p = st !! value p).
Proof.
  induction ps as [|q ps IH]; intros st status E p; simpl in E.
  - injection E as <-. split; [by intros ?%elem_of_nil|done].
  - destruct (configured configs q) as [c|e] eqn:Eq; [|done].
    unfold mbind, exc_bind in E. destruct (IH _ _ E p) as [Hin Hout].
    split.
    + intros Hp. destruct (decide (p ∈ ps)) as [Hps|Hps]; [by apply Hin|].
      apply elem_of_cons in Hp as [->|Hp]; [|done].
      exists c. split; [done|]. rewrite (Hout Hps). apply lookup_insert_eq.
    + intros Hp. apply not_elem_of_cons in Hp as [Hpq Hps].
      rewrite (Hout Hps). apply lookup_insert_ne. by intros ?%value_inj.
Qed.

Lemma status_among_keys configs ps : forall st status k,
  status_among configs ps st = Ok status ->
  is_Some (status !! k) <-> (exists p, p ∈ ps /\ k = value p) \/ is_Some (st !! k).
Proof.
  induction ps as [|q ps IH]; intros st status k E; simpl in E.
  - injection E as <-. split; [by right|]. intros [(p & []%elem_of_nil & _)|]; done.
  - destruct (configured configs q) as [c|e] eqn:Eq; [|done].
    unfold mbind, exc_bind in E. rewrite (IH _ _ k E). split.
    + intros [(p & Hp & ->)|Hk].
      * left. exists p. split; [by right|done].
      * destruct (decide (value q = k)) as [<-|Hne].
        -- left. exists q. split; [left|done].
        -- right. by rewrite lookup_insert_ne in Hk.
    + intros [(p & [->|Hp]%elem_of_cons & ->)|Hk].
      * right. rewrite lookup_insert_eq. eauto.
      * left. eauto.
      * right. destruct (decide (value q = k)) as [<-|Hne].
        -- rewrite lookup_insert_eq. eauto.
        -- by rewrite lookup_insert_ne.
Qed.

(** The status dictionary has one entry for each of the nine providers,
    also for those without a configuration, and no other entry. *)
Lemma provider_status_lookup configs status p :
  get_provider_status configs = Ok status ->
  exists c, configured configs p = Ok c /\ status !! value p = Some c.
Proof.
  intros E. apply (status_among_lookup _ _ _ _ E p), all_providers_elem.
Qed.

Lemma provider_status_keys configs status k :
  get_provider_status configs = Ok status ->
  is_Some (status !! k) <-> exists p, k = value p.
Proof.
  intros E. rewrite (status_among_keys _ _ _ _ k E). split.
  - intros [(p & _ & ->)|Hk]; [eauto|]. rewrite lookup_empty in Hk. by destruct Hk.
  - intros [p ->]. left. exists p. split; [apply all_providers_elem|done].
Qed.

(** What the status dictionary holds for a provider: [False] when it has no
    configuration, and otherwise the value of its [api_key] itself ([None]
    when the key is missing), not a boolean made from it. *)
Lemma provider_status_value configs status p :
  get_provider_status configs = Ok status ->
  (configs !! p = None -> status !! value p = Some (PBool false))
  /\ (forall d, configs !! p = Some (PDict d) ->
        status !! value p = Some (default PNone (assoc d (u8 "api_key")))).
Proof.
  intros E. destruct (provider_status_lookup _ _ p E) as (c & Hc & ->).
  split.
  - intros Hp. rewrite (configured_absent _ _ Hp) in Hc. by injection Hc as <-.
  - intros d Hp. rewrite (configured_object _ _ _ Hp) in Hc. by injection Hc as <-.
Qed.

(** C7, on the code.  With a deepseek configuration in the store, the
    status of "deepseek" is the API key string, where the claim and the
    return annotation [Dict[str, bool]] have [True]; the status of a
    provider without a configuration is [False]. *)
Theorem provider_status_holds_api_key :
  exists status,
    get_provider_status {[ DEEPSEEK := deepseek_entry ]} = Ok status
    /\ status !! u8 "deepseek" = Some (PStr (u8 "sk-0123456789abcdefghij"))
    /\ status !! u8 "gemini" = Some (PBool false)
    /\ get_available_providers {[ DEEPSEEK := deepseek_entry ]}
       = Ok [u8 "deepseek"].
Proof. eexists. split; [by vm_compute|]. by vm_compute. Qed.

(** ** Worked examples *)

Example u8_samples :
  u8 "sk-" = [115; 107; 45]%N /\ u8 "秒" = [0x79D2]%N
  /\ u8 "• " = [0x2022; 32]%N.
Proof. by vm_compute. Qed.

Example of_Z_samples :
  Str.of_Z 0 = u8 "0" /\ Str.of_Z 301 = u8 "301" /\ Str.of_Z (-7) = u8 "-7".
Proof. by vm_compute. Qed.

Example strip_sample :
  Str.strip ([32; 9] ++ u8 "sk-a b" ++ [0x3000; 10])%N = u8 "sk-a b".
Proof. by vm_compute. Qed.

Example upper_sample `{PyBuiltins} : str_upper (value DEEPSEEK) = u8 "DEEPSEEK".
Proof. by vm_compute. Qed.

Example deepseek_config_valid :
  _validate_config DEEPSEEK deepseek_config = valid_result.
Proof. by vm_compute. Qed.

(** [Infinity] in the configuration file: [int] raises [OverflowError],
    which the handler of the timeout check does not name. *)
Example timeout_infinity :
  _validate_config DEEPSEEK
    (<[u8 "timeout" := PFloat (S754_infinity false)]> deepseek_config)
  = invalid (u8 "配置验证异常: cannot convert float infinity to integer")
            (u8 "unknown").
Proof. by vm_compute. Qed.

Example select_shortest :
  (select_result (u8 "task") [DEEPSEEK; DOUBAO; GEMINI]
     [inl long_success; inl short_success; inl (stub_failure GEMINI)]).1
  = 1%nat
  /\ length (simplified_task long_success) = 30%nat
  /\ length (simplified_task short_success) = 12%nat.
Proof. by vm_compute. Qed.

Example summary_of_four :
  let '(answer, h) :=
    select_result (u8 "task") [GEMINI; CLAUDE; GLM; WENXIN]
      (map (fun p => inl (stub_failure p)) [GEMINI; CLAUDE; GLM; WENXIN]) in
  (error <$> dicts h !! answer)
  = Some (Some (u8 "所有AI平台都失败了:" ++ [10; 10]%N
                ++ u8 "• GEMINI: not implemented" ++ [10%N]
                ++ u8 "• CLAUDE: not implemented" ++ [10%N]
                ++ u8 "• GLM: not implemented" ++ [10; 10]%N
                ++ u8 "还有1个平台的错误...")).
Proof. by vm_compute. Qed.

(** ** Instances of the theorems *)

Lemma validate_config_never_raises_witness :
  validate_body DEEPSEEK numeric_key_config
  = Throw (Exn AttributeError (u8 "'int' object has no attribute 'strip'"))
  /\ _validate_config DEEPSEEK numeric_key_config
     = invalid (u8 "配置验证异常: "
                ++ exn_msg (Exn AttributeError
                              (u8 "'int' object has no attribute 'strip'")))
               (u8 "unknown")
  /\ exists e f,
      v_error (_validate_config DEEPSEEK numeric_key_config) = Some e
      /\ e <> [] /\ v_field (_validate_config DEEPSEEK numeric_key_config) = Some f.
Proof.
  assert (E : validate_body DEEPSEEK numeric_key_config
              = Throw (Exn AttributeError
                         (u8 "'int' object has no attribute 'strip'")))
    by (vm_compute; reflexivity).
  destruct (@validate_config_never_raises ascii_runtime DEEPSEEK
              numeric_key_config) as (_ & Hthrow & Hwf).
  split; [exact E|]. split.
  - exact (Hthrow _ E).
  - apply Hwf. vm_compute. reflexivity.
Defined.

Lemma validation_order_api_key_first_witness :
  (∅ : gmap pystr pyval) !! u8 "api_key" = None
  /\ _validate_config WENXIN ∅
     = invalid (value WENXIN ++ u8 "平台的API密钥为空，请设置有效的API密钥")
               (u8 "api_key").
Proof.
  assert (E : (∅ : gmap pystr pyval) !! u8 "api_key" = None)
    by (vm_compute; reflexivity).
  split; [exact E|].
  exact (proj2 (@validation_order_api_key_first ascii_runtime WENXIN ∅)
               (or_introl E)).
Defined.



Lemma numeric_keys_default_witness :
  checks_before_timeout DEEPSEEK deepseek_config = Next tt
  /\ _validate_config DEEPSEEK deepseek_config = valid_result.
Proof.
  assert (E : checks_before_timeout DEEPSEEK deepseek_config = Next tt)
    by (vm_compute; reflexivity).
  split; [exact E|].
  destruct (@numeric_keys_default ascii_runtime DEEPSEEK _ E)
    as (_ & _ & _ & Hall & _).
  apply Hall; left; vm_compute; reflexivity.
Defined.



Lemma unconfigured_provider_rejected_witness :
  (∅ : gmap AIProvider (gmap pystr pyval)) !! GEMINI = None
  /\ run polished_world (simplify_task_async ∅ (u8 "帮我打开微信") GEMINI)
     = (failure (u8 "gemini")
          (u8 "未找到gemini平台的配置，请在API配置页面添加配置")
          (u8 "帮我打开微信"), []).
Proof.
  assert (E : (∅ : gmap AIProvider (gmap pystr pyval)) !! GEMINI = None)
    by reflexivity.
  split; [exact E|].
  destruct (@unconfigured_provider_rejected ascii_runtime ∅
              (u8 "帮我打开微信") GEMINI E) as (_ & Hrun & _).
  rewrite Hrun. vm_compute. reflexivity.
Defined.

Lemma invalid_config_folded_witness :
  ({[ DEEPSEEK := ∅ ]} : gmap AIProvider (gmap pystr pyval)) !! DEEPSEEK
  = Some ∅
  /\ valid (_validate_config DEEPSEEK ∅) = false
  /\ simplified_task
       (run polished_world
          (simplify_task_async {[ DEEPSEEK := ∅ ]} (u8 "帮我打开微信")
             DEEPSEEK)).1
     = u8 "帮我打开微信".
Proof.
  assert (E : ({[ DEEPSEEK := ∅ ]} : gmap AIProvider (gmap pystr pyval))
              !! DEEPSEEK = Some ∅) by (vm_compute; reflexivity).
  assert (V : valid (_validate_config DEEPSEEK ∅) = false)
    by (vm_compute; reflexivity).
  split; [exact E|]. split; [exact V|].
  destruct (@invalid_config_folded ascii_runtime {[ DEEPSEEK := ∅ ]}
              (u8 "帮我打开微信") DEEPSEEK ∅ E V) as (_ & _ & Htask).
  apply Htask.
Defined.



(** * Further properties of the code *)

(** ** Stripping *)

Lemma lstrip_lstrip s : Str.lstrip (Str.lstrip s) = Str.lstrip s.
Proof.
  destruct (Str.lstrip s) as [|c r] eqn:L; [done|].
  apply lstrip_head in L. simpl. by rewrite L.
Qed.

Lemma lstrip_suffix s : exists pre, s = pre ++ Str.lstrip s.
Proof.
  induction s as [|c s [pre IH]]; simpl; [by exists []|].
  destruct (Str.isspace c).
  - exists (c :: pre). simpl. by rewrite <- IH.
  - by exists [].
Qed.

(** [strip] changes nothing in what it returns. *)
Lemma strip_strip s : Str.strip (Str.strip s) = Str.strip s.
Proof.
  unfold Str.strip, Str.rstrip.
  set (a := Str.lstrip s). set (b := Str.lstrip (rev a)).
  assert (Hb : Str.lstrip (rev b) = rev b).
  { destruct (rev b) as [|c r] eqn:Erb; [done|].
    destruct (lstrip_suffix (rev a)) as [pre Hpre]. fold b in Hpre.
    apply (f_equal (@rev N)) in Hpre.
    rewrite rev_involutive, rev_app_distr, Erb in Hpre.
    unfold a in Hpre. apply lstrip_head in Hpre. simpl. by rewrite Hpre. }
  rewrite Hb, rev_involutive. unfold b. by rewrite lstrip_lstrip.
Qed.

Section MoreValidationFacts.
Context `{PyBuiltins}.

Lemma dict_get_insert_ne (config : gmap pystr pyval) k k' v dflt :
  k <> k' -> dict_get (<[k := v]> config) k' dflt = dict_get config k' dflt.
Proof. intros Hne. unfold dict_get. by rewrite lookup_insert_ne. Qed.

Lemma dict_get_insert_eq (config : gmap pystr pyval) k v dflt :
  dict_get (<[k := v]> config) k dflt = v.
Proof. unfold dict_get. by rewrite lookup_insert_eq. Qed.

Lemma py_strip_insert_stripped (config : gmap pystr pyval) k s k' dflt :
  config !! k = Some (PStr s) ->
  py_strip (dict_get (<[k := PStr (Str.strip s)]> config) k' dflt)
  = py_strip (dict_get config k' dflt).
Proof.
  intros Hk. destruct (decide (k = k')) as [<-|Hne].
  - rewrite dict_get_insert_eq. unfold dict_get. rewrite Hk. simpl.
    by rewrite strip_strip.
  - by rewrite dict_get_insert_ne.
Qed.

Ltac keys_differ := let E := fresh in intros E; vm_compute in E; discriminate.

(** X1.  Validation looks at the stripped [api_key], [base_url] and [model]
    only: writing the stripped string in place of the configured one
    changes nothing in the result, message included. *)
Theorem validation_ignores_surrounding_whitespace p config k s :
  k ∈ [u8 "api_key"; u8 "base_url"; u8 "model"] ->
  config !! k = Some (PStr s) ->
  _validate_config p (<[k := PStr (Str.strip s)]> config)
  = _validate_config p config.
Proof.
  intros Hk Hs.
  unfold _validate_config, validate_body, check_api_key, check_base_url,
    check_model, check_timeout, check_max_tokens, check_temperature.
  rewrite !(py_strip_insert_stripped config k s) by done.
  repeat (apply elem_of_cons in Hk as [->|Hk];
          [by rewrite !dict_get_insert_ne by keys_differ|]).
  by apply elem_of_nil in Hk.
Qed.

(** X2.  Validation reads six keys and no other: a configuration may hold
    anything under any other key. *)
Theorem validation_reads_six_keys p config k v :
  k ∉ [u8 "api_key"; u8 "base_url"; u8 "model"; u8 "timeout";
        u8 "max_tokens"; u8 "temperature"] ->
  _validate_config p (<[k := v]> config) = _validate_config p config
  /\ _validate_config p (delete k config) = _validate_config p config.
Proof.
  intros Hk.
  assert (Hget : forall k' dflt,
            k' ∈ [u8 "api_key"; u8 "base_url"; u8 "model"; u8 "timeout";
                  u8 "max_tokens"; u8 "temperature"] ->
            dict_get (<[k := v]> config) k' dflt = dict_get config k' dflt
            /\ dict_get (delete k config) k' dflt = dict_get config k' dflt).
  { intros k' dflt Hk'. assert (k <> k') by (by intros ->).
    unfold dict_get. by rewrite lookup_insert_ne, lookup_delete_ne. }
  unfold _validate_config, validate_body, check_api_key, check_base_url,
    check_model, check_timeout, check_max_tokens, check_temperature.
  split.
  - by rewrite !(fun k' d Hk' => proj1 (Hget k' d Hk'))
      by (repeat first [left | right]).
  - by rewrite !(fun k' d Hk' => proj2 (Hget k' d Hk'))
      by (repeat first [left | right]).
Qed.

(** *** Which configurations are valid *)

Ltac unfold_flow :=
  unfold mbind, mret, flow_bind, flow_ret, exc_bind, exc_ret, lift in *.

Ltac returns_invalid :=
  intros r; unfold_flow; repeat case_match; try discriminate;
  by intros [= <-].

Lemma check_api_key_invalid p config r :
  check_api_key p config = Return r -> valid r = false.
Proof. revert r. unfold check_api_key. returns_invalid. Qed.

Lemma check_key_format_invalid p k r :
  check_key_format p k = Return r -> valid r = false.
Proof. revert r. unfold check_key_format. returns_invalid. Qed.

Lemma check_base_url_invalid p config r :
  check_base_url p config = Return r -> valid r = false.
Proof. revert r. unfold check_base_url. returns_invalid. Qed.

Lemma check_url_substring_invalid p u r :
  check_url_substring p u = Return r -> valid r = false.
Proof. revert r. unfold check_url_substring. returns_invalid. Qed.

Lemma check_model_invalid p config r :
  check_model p config = Return r -> valid r = false.
Proof. revert r. unfold check_model. returns_invalid. Qed.

Lemma check_timeout_invalid config r :
  check_timeout config = Return r -> valid r = false.
Proof. revert r. unfold check_timeout. returns_invalid. Qed.

Lemma check_max_tokens_invalid config r :
  check_max_tokens config = Return r -> valid r = false.
Proof. revert r. unfold check_max_tokens. returns_invalid. Qed.

Lemma check_temperature_invalid config r :
  check_temperature config = Return r -> valid r = false.
Proof. revert r. unfold check_temperature. returns_invalid. Qed.

(** A configuration is valid exactly when every check passes. *)
Lemma valid_iff_all_pass p config :
  valid (_validate_config p config) = true <->
  exists k u,
    check_api_key p config = Next k /\ check_key_format p k = Next tt
    /\ check_base_url p config = Next u /\ check_url_substring p u = Next tt
    /\ check_model p config = Next tt /\ check_timeout config = Next tt
    /\ check_max_tokens config = Next tt
    /\ check_temperature config = Next tt.
Proof.
  unfold _validate_config, validate_body. split.
  - intros Hv.
    destruct (check_api_key p config) as [k|r|e] eqn:E1;
      [|apply check_api_key_invalid in E1|];
      unfold mbind, flow_bind in Hv; cbv beta iota in Hv;
      [|congruence|discriminate].
    destruct (check_key_format p k) as [[]|r|e] eqn:E2;
      [|apply check_key_format_invalid in E2|];
      cbv beta iota in Hv; [|congruence|discriminate].
    destruct (check_base_url p config) as [u|r|e] eqn:E3;
      [|apply check_base_url_invalid in E3|];
      cbv beta iota in Hv; [|congruence|discriminate].
    destruct (check_url_substring p u) as [[]|r|e] eqn:E4;
      [|apply check_url_substring_invalid in E4|];
      cbv beta iota in Hv; [|congruence|discriminate].
    destruct (check_model p config) as [[]|r|e] eqn:E5;
      [|apply check_model_invalid in E5|];
      cbv beta iota in Hv; [|congruence|discriminate].
    destruct (check_timeout config) as [[]|r|e] eqn:E6;
      [|apply check_timeout_invalid in E6|];
      cbv beta iota in Hv; [|congruence|discriminate].
    destruct (check_max_tokens config) as [[]|r|e] eqn:E7;
      [|apply check_max_tokens_invalid in E7|];
      cbv beta iota in Hv; [|congruence|discriminate].
    destruct (check_temperature config) as [[]|r|e] eqn:E8;
      [|apply check_temperature_invalid in E8|];
      cbv beta iota in Hv; [|congruence|discriminate].
    by exists k, u.
  - intros (k & u & -> & E2 & -> & E4 & -> & -> & -> & ->).
    unfold mbind, flow_bind. by rewrite E2, E4.
Qed.

Lemma stripped_field (config : gmap pystr pyval) key k :
  (py_strip (dict_get config key (PStr [])) = Ok k /\ k <> [])
  <-> exists s, config !! key = Some (PStr s) /\ k = Str.strip s /\ k <> [].
Proof.
  unfold dict_get. split.
  - intros [E Hk]. destruct (config !! key) as [v|]; simpl in E.
    + destruct v; try discriminate. injection E as <-. eauto.
    + injection E as <-. done.
  - intros (s & -> & -> & Hk). done.
Qed.

Lemma check_api_key_next p config k :
  check_api_key p config = Next k
  <-> exists s, config !! u8 "api_key" = Some (PStr s) /\ k = Str.strip s
                /\ k <> [].
Proof.
  rewrite <- stripped_field. unfold check_api_key. unfold_flow.
  destruct (py_strip _) as [k'|e]; [|split; [done|by intros [? _]]].
  simpl. case_bool_decide; simpl; subst.
  - split; [done|]. by intros [[= <-] ?].
  - split; [by intros [= <-]|by intros [[= <-] _]].
Qed.

Lemma check_base_url_next p config u :
  check_base_url p config = Next u
  <-> exists s, config !! u8 "base_url" = Some (PStr s) /\ u = Str.strip s
                /\ u <> []
                /\ Str.startswith u (u8 "http://")
                   || Str.startswith u (u8 "https://") = true.
Proof.
  assert (forall P Q R : Prop, (P <-> Q) -> (P /\ R <-> Q /\ R)) as Hand by tauto.
  transitivity ((py_strip (dict_get config (u8 "base_url") (PStr [])) = Ok u
                 /\ u <> [])
                /\ Str.startswith u (u8 "http://")
                   || Str.startswith u (u8 "https://") = true).
  - unfold check_base_url. unfold_flow.
    destruct (py_strip _) as [u'|e]; [|split; [done|by intros [[? _] _]]].
    simpl. case_bool_decide; simpl; subst.
    + split; [done|]. by intros [[[= <-] ?] _].
    + destruct (_ || _) eqn:E; simpl.
      * split; [intros [= <-]; by rewrite E|by intros [[[= <-] _] _]].
      * split; [done|]. intros [[[= <-] _] E']. congruence.
  - rewrite stripped_field. split.
    + intros [(s & ? & ? & ?) ?]. eauto.
    + intros (s & ? & ? & ? & ?). eauto.
Qed.

Lemma model_rule_nonempty p k :
  k <> [] ->
  model_rule p k
  = match p with
    | DEEPSEEK => Str.startswith k (u8 "deepseek-")
    | OPENAI =>
      existsb (fun vm => Str.startswith k vm)
        [u8 "gpt-3.5-turbo"; u8 "gpt-4"; u8 "gpt-4-turbo"; u8 "gpt-4o"]
    | DOUBAO => Str.startswith k (u8 "ep-") || Str.startswith k (u8 "doubao-")
    | _ => true
    end.
Proof.
  intros Hk. unfold model_rule. by rewrite (bool_decide_eq_false_2 _ Hk).
Qed.

Lemma check_model_next p config :
  check_model p config = Next tt
  <-> string_field config (u8 "model") (model_rule p).
Proof.
  transitivity (exists k, (py_strip (dict_get config (u8 "model") (PStr []))
                           = Ok k /\ k <> [])
                          /\ model_rule p k = true).
  - unfold check_model. unfold_flow. destruct (py_strip _) as [k|e].
    + unfold truthy. case_bool_decide as Hk; cbv beta iota delta [negb].
      * subst. split; [done|]. by intros (k & [[= <-] ?] & _).
      * assert (Hin : k ∈ [u8 "deepseek-chat"; u8 "deepseek-coder"] ->
                      Str.startswith k (u8 "deepseek-") = true).
        { intros [->|[->|[]%elem_of_nil]%elem_of_cons]%elem_of_cons;
            by vm_compute. }
        split.
        -- intros E. exists k. split; [done|].
           rewrite model_rule_nonempty by done.
           destruct p; try done.
           ++ cbv zeta in E. case_bool_decide; [by apply Hin|].
              by destruct (Str.startswith k _).
           ++ by destruct (Str.startswith k _ || Str.startswith k _).
           ++ by destruct (existsb _ _).
        -- intros (k' & [[= <-] _] & E).
           rewrite model_rule_nonempty in E by done.
           destruct p; try done.
           ++ rewrite E. by rewrite andb_false_r.
           ++ by rewrite E.
           ++ by rewrite E.
    + split; [done|]. by intros (k & [? _] & _).
  - unfold string_field. split.
    + intros (k & (s & ? & -> & ?)%stripped_field & E). by exists s.
    + intros (s & Hs & E). exists (Str.strip s). split; [|done].
      apply stripped_field. exists s. repeat split; [done|].
      intros Hnil. unfold model_rule in E. rewrite Hnil in E. done.
Qed.

Lemma check_timeout_next config :
  check_timeout config = Next tt
  <-> exists z, py_int (dict_get config (u8 "timeout") (PInt 30)) = Ok z
                /\ 1 <= z <= 300.
Proof.
  unfold check_timeout. destruct (py_int _) as [z|e].
  - destruct (z <? 1) eqn:E1; simpl.
    + split; [done|]. intros (? & [= <-] & ?). lia.
    + destruct (z >? 300) eqn:E2; simpl.
      * split; [done|]. intros (? & [= <-] & ?). lia.
      * split; [|done]. intros _. exists z. split; [done|lia].
  - split; [by case_match|by intros (? & ? & _)].
Qed.

Lemma check_max_tokens_next config :
  check_max_tokens config = Next tt
  <-> exists z, py_int (dict_get config (u8 "max_tokens") (PInt 200)) = Ok z
                /\ 1 <= z <= 8000.
Proof.
  unfold check_max_tokens. destruct (py_int _) as [z|e].
  - destruct (z <? 1) eqn:E1; simpl.
    + split; [done|]. intros (? & [= <-] & ?). lia.
    + destruct (z >? 8000) eqn:E2; simpl.
      * split; [done|]. intros (? & [= <-] & ?). lia.
      * split; [|done]. intros _. exists z. split; [done|lia].
  - split; [by case_match|by intros (? & ? & _)].
Qed.

Lemma check_temperature_next config :
  check_temperature config = Next tt
  <-> exists f,
      py_float (dict_get config (u8 "temperature") (PFloat float_0_1)) = Ok f
      /\ float_lt_int f 0 = false /\ float_gt_int f 2 = false.
Proof.
  unfold check_temperature. destruct (py_float _) as [f|e].
  - destruct (float_lt_int f 0) eqn:E1; simpl.
    + split; [done|]. intros (? & [= <-] & ? & ?). congruence.
    + destruct (float_gt_int f 2) eqn:E2; simpl.
      * split; [done|]. intros (? & [= <-] & ? & ?). congruence.
      * split; [|done]. intros _. by exists f.
  - split; [by case_match|by intros (? & ? & _)].
Qed.

Lemma key_format_rule p k :
  k <> [] -> (check_key_format p k = Next tt <-> key_rule p k = true).
Proof.
  intros Hk. unfold key_rule, check_key_format.
  rewrite (bool_decide_eq_false_2 _ Hk). cbv beta iota delta [negb andb].
  destruct p; try done.
  - destruct (Str.startswith k _); cbv beta iota delta [negb andb]; [|done].
    destruct (Nat.ltb_spec (length k) 20), (Nat.leb_spec 20 (length k));
      split; try done; lia.
  - destruct (Nat.ltb_spec (length k) 16), (Nat.leb_spec 16 (length k));
      split; try done; lia.
  - destruct (Str.startswith k _); cbv beta iota delta [negb andb]; [|done].
    destruct (Nat.ltb_spec (length k) 20), (Nat.leb_spec 20 (length k));
      split; try done; lia.
Qed.

Lemma url_substring_rule p u :
  u <> [] ->
  Str.startswith u (u8 "http://") || Str.startswith u (u8 "https://") = true ->
  (check_url_substring p u = Next tt <-> url_rule p u = true).
Proof.
  intros Hu Hs. unfold url_rule, check_url_substring.
  rewrite (bool_decide_eq_false_2 _ Hu), Hs.
  cbv beta iota delta [negb andb].
  destruct p; try done; by destruct (Str.contains u _).
Qed.

Lemma valid_iff_fields p config :
  valid (_validate_config p config) = true <->
  string_field config (u8 "api_key") (key_rule p)
  /\ string_field config (u8 "base_url") (url_rule p)
  /\ string_field config (u8 "model") (model_rule p)
  /\ check_timeout config = Next tt
  /\ check_max_tokens config = Next tt
  /\ check_temperature config = Next tt.
Proof.
  rewrite valid_iff_all_pass, <- check_model_next.
  unfold string_field. split.
  - intros (k & u & (s & Hs & -> & Hk)%check_api_key_next & Hkf
            & (s' & Hs' & -> & Hu & Hscheme)%check_base_url_next & Huf
            & ? & ? & ? & ?).
    apply key_format_rule in Hkf; [|done].
    apply url_substring_rule in Huf; [|done..].
    repeat split; eauto.
  - intros ((s & Hs & Hkr) & (s' & Hs' & Hur) & ? & ? & ? & ?).
    assert (Hk : Str.strip s <> []).
    { intros E. unfold key_rule in Hkr. by rewrite E in Hkr. }
    assert (Hu : Str.strip s' <> []).
    { intros E. unfold url_rule in Hur. by rewrite E in Hur. }
    assert (Hscheme : Str.startswith (Str.strip s') (u8 "http://")
                      || Str.startswith (Str.strip s') (u8 "https://") = true).
    { unfold url_rule in Hur. rewrite (bool_decide_eq_false_2 _ Hu) in Hur.
      by destruct (_ || _). }
    exists (Str.strip s), (Str.strip s'). repeat split; try done.
    + apply check_api_key_next. eauto.
    + by apply key_format_rule.
    + apply check_base_url_next. exists s'. eauto.
    + by apply url_substring_rule.
Qed.

(** X3.  A configuration is valid exactly when its [api_key], [base_url] and
    [model] are strings that meet the rules of the provider once stripped,
    its [timeout] (30 when left out) is read by [int] as a number from 1 to
    300, its [max_tokens] (200) as a number from 1 to 8000, and its
    [temperature] (0.1) is read by [float] as a number that is neither
    below 0 nor above 2. *)
Theorem valid_iff_rules p config :
  valid (_validate_config p config) = true <->
  string_field config (u8 "api_key") (key_rule p)
  /\ string_field config (u8 "base_url") (url_rule p)
  /\ string_field config (u8 "model") (model_rule p)
  /\ (exists z, py_int (dict_get config (u8 "timeout") (PInt 30)) = Ok z
                /\ 1 <= z <= 300)
  /\ (exists z, py_int (dict_get config (u8 "max_tokens") (PInt 200)) = Ok z
                /\ 1 <= z <= 8000)
  /\ (exists f,
        py_float (dict_get config (u8 "temperature") (PFloat float_0_1)) = Ok f
        /\ float_lt_int f 0 = false /\ float_gt_int f 2 = false).
Proof.
  rewrite valid_iff_fields, <- check_timeout_next, <- check_max_tokens_next,
    <- check_temperature_next. done.
Qed.

(** *** Floats in the numeric fields *)

Lemma string_field_insert_ne (config : gmap pystr pyval) k k' v rule :
  k <> k' ->
  string_field (<[k := v]> config) k' rule <-> string_field config k' rule.
Proof. intros Hne. unfold string_field. by rewrite lookup_insert_ne. Qed.

(** X4.  The range test of [temperature] is written with [<] and [>], which a
    NaN never satisfies: in a valid configuration, a NaN in place of the
    temperature leaves the configuration valid, while an infinity in its
    place is rejected with field "temperature". *)
Theorem temperature_nan_passes p config :
  valid (_validate_config p config) = true ->
  valid (_validate_config p (<[u8 "temperature" := PFloat S754_nan]> config))
  = true
  /\ forall s,
      _validate_config p
        (<[u8 "temperature" := PFloat (S754_infinity s)]> config)
      = invalid (u8 "温度参数设置不合理，应设置0-2之间，当前设置: "
                 ++ repr_float (S754_infinity s))
                (u8 "temperature").
Proof.
  intros Hv. split.
  - apply valid_iff_fields in Hv as (Hk & Hu & Hm & Ht & Hmt & _).
    apply valid_iff_fields.
    rewrite !string_field_insert_ne by keys_differ.
    unfold check_timeout, check_max_tokens, check_temperature in *.
    rewrite !dict_get_insert_ne by keys_differ.
    rewrite dict_get_insert_eq.
    repeat split; done.
  - intros s.
    apply valid_iff_all_pass in Hv
      as (k & u & E1 & E2 & E3 & E4 & E5 & E6 & E7 & _).
    unfold _validate_config, validate_body.
    unfold check_api_key, check_base_url, check_model, check_timeout,
      check_max_tokens in *.
    rewrite !dict_get_insert_ne by keys_differ.
    rewrite E1. unfold mbind at 1, flow_bind at 1. rewrite E2.
    unfold mbind at 1, flow_bind at 1. rewrite E3.
    unfold mbind at 1, flow_bind at 1. rewrite E4.
    unfold mbind at 1, flow_bind at 1. rewrite E5.
    unfold mbind at 1, flow_bind at 1. rewrite E6.
    unfold mbind at 1, flow_bind at 1. rewrite E7.
    unfold mbind at 1, flow_bind at 1.
    unfold check_temperature. rewrite dict_get_insert_eq. by destruct s.
Qed.

Lemma float_trunc_range s m e :
  1 <= float_trunc s m e <= 300
  <-> float_lt_int (S754_finite s m e) 1 = false
      /\ float_lt_int (S754_finite s m e) 301 = true.
Proof.
  unfold float_trunc, float_lt_int, float_cmp_int.
  destruct e as [|q|q].
  - (* e = 0 *)
    destruct s; change (2 ^ 0) with 1;
      repeat match goal with
             | |- context [?a ?= ?b] => destruct (Z.compare_spec a b)
             end; split; try done; try lia; intros [? ?]; done.
  - (* e > 0 *)
    rewrite Z.shiftl_mul_pow2 by lia.
    pose proof (Z.pow_pos_nonneg 2 (Z.pos q)) as Hpow.
    destruct s;
      repeat match goal with
             | |- context [?a ?= ?b] => destruct (Z.compare_spec a b)
             end; split; try done; try nia; intros [? ?]; done.
  - (* e < 0 *)
    rewrite Z.shiftr_div_pow2 by lia.
    pose proof (Z.pow_pos_nonneg 2 (Z.pos q)) as Hpow.
    pose proof (Z.div_mod (Z.pos m) (2 ^ Z.pos q)) as Hdm.
    pose proof (Z.mod_pos_bound (Z.pos m) (2 ^ Z.pos q)) as Hmod.
    destruct s;
      repeat match goal with
             | |- context [?a ?= ?b] => destruct (Z.compare_spec a b)
             end; split; try done; try nia; intros [? ?]; done.
Qed.

(** X5.  [int] drops the fraction of a float before the range test: a finite
    float [timeout] passes exactly when it is at least 1 and below 301, so
    that 300.5 passes though it is above 300. *)
Theorem float_timeout_truncated config s m e :
  config !! u8 "timeout" = Some (PFloat (S754_finite s m e)) ->
  check_timeout config = Next tt
  <-> float_lt_int (S754_finite s m e) 1 = false
      /\ float_lt_int (S754_finite s m e) 301 = true.
Proof.
  intros Hc. rewrite check_timeout_next, <- float_trunc_range.
  unfold dict_get. rewrite Hc. simpl. split.
  - by intros (z & [= <-] & ?).
  - intros ?. eauto.
Qed.

End MoreValidationFacts.

(** ** More on the single-provider path *)

Section MoreAdapterFacts.
Context `{PyBuiltins}.

Lemma http_call_calls w request on_response handler :
  (run w (http_call request on_response handler)).2
  = match request with
    | Ok req => record w (HttpCall req) []
    | Raise _ => []
    end.
Proof. by destruct request. Qed.

Lemma sdk_call_calls w request on_completion handler :
  (run w (sdk_call request on_completion handler)).2
  = match request with
    | Ok req => record w (SdkCall req) []
    | Raise _ => []
    end.
Proof. by destruct request. Qed.

Lemma record_length w c : (length (record w c []) <= 1)%nat.
Proof. unfold record. destruct (made w c); simpl; lia. Qed.

Lemma failure_sound name e task : sound_result name task (failure name e task).
Proof. unfold sound_result. simpl. repeat split; eauto; done. Qed.

Lemma succeeded_sound name s u task : sound_result name task (succeeded name s u).
Proof. unfold sound_result. simpl. repeat split; eauto; done. Qed.

Lemma plain_handler_sound name task e :
  sound_result name task (plain_handler name task e).
Proof. unfold plain_handler. case_match; apply failure_sound. Qed.

Lemma deepseek_handler_sound task config e :
  sound_result (u8 "deepseek") task (deepseek_handler task config e).
Proof. unfold deepseek_handler. repeat case_match; apply failure_sound. Qed.

Lemma yuanbao_handler_sound task config e :
  sound_result (u8 "yuanbao") task (yuanbao_handler task config e).
Proof. unfold yuanbao_handler. repeat case_match; apply failure_sound. Qed.

Lemma chat_response_sound name task response r :
  chat_response name task response = Ok r -> sound_result name task r.
Proof.
  unfold chat_response. case_match.
  - intros E. repeat (apply exc_bind_ok in E as (? & ? & E)).
    injection E as <-. apply succeeded_sound.
  - intros (? & _ & [= <-])%exc_bind_ok. apply failure_sound.
Qed.

Lemma wenxin_response_sound task response r :
  wenxin_response task response = Ok r -> sound_result (u8 "wenxin") task r.
Proof.
  unfold wenxin_response. case_match.
  - intros E. repeat (apply exc_bind_ok in E as (? & ? & E)).
    injection E as <-. apply succeeded_sound.
  - intros (? & _ & [= <-])%exc_bind_ok. apply failure_sound.
Qed.

Lemma yuanbao_completion_sound task completion r :
  yuanbao_completion completion = Ok r -> sound_result (u8 "yuanbao") task r.
Proof.
  unfold yuanbao_completion.
  intros (s & _ & [= <-])%exc_bind_ok. apply succeeded_sound.
Qed.

Lemma tongyi_completion_sound task completion r :
  tongyi_completion completion = Ok r -> sound_result (u8 "tongyi") task r.
Proof.
  unfold tongyi_completion.
  intros (s & _ & [= <-])%exc_bind_ok. apply succeeded_sound.
Qed.

Lemma http_call_sound name task w request on_response handler :
  (forall response r, on_response response = Ok r -> sound_result name task r) ->
  (forall e, sound_result name task (handler e)) ->
  sound_result name task (run w (http_call request on_response handler)).1.
Proof.
  intros Hr Hh. rewrite run_http_call. destruct request as [req|e]; [|done].
  destruct (http_post w req) as [response|e]; [|apply Hh].
  unfold mbind, exc_bind.
  destruct (on_response response) eqn:E; [by eapply Hr|apply Hh].
Qed.

Lemma sdk_call_sound name task w request on_completion handler :
  (forall completion r, on_completion completion = Ok r -> sound_result name task r) ->
  (forall e, sound_result name task (handler e)) ->
  sound_result name task (run w (sdk_call request on_completion handler)).1.
Proof.
  intros Hr Hh. rewrite run_sdk_call. destruct request as [req|e]; [|done].
  destruct (chat_create w req) as [completion|e]; [|apply Hh].
  unfold mbind, exc_bind.
  destruct (on_completion completion) eqn:E; [by eapply Hr|apply Hh].
Qed.

Lemma call_provider_sound w p task config :
  sound_result (value p) task (run w (call_provider p task config)).1.
Proof.
  destruct p; simpl call_provider;
    first [ apply failure_sound
          | apply http_call_sound | apply sdk_call_sound ];
    eauto using chat_response_sound, wenxin_response_sound,
      yuanbao_completion_sound, tongyi_completion_sound,
      plain_handler_sound, deepseek_handler_sound, yuanbao_handler_sound.
Qed.

(** X6.  Whatever the configurations, the task and the outside world, the
    result of the single-provider path names its provider; a failure
    carries the task unchanged and an error; a success carries no error,
    no [field] and a usage; a [field] is there only on a failure. *)
Theorem single_provider_result_shape w configs task p :
  let r := (run w (simplify_task_async configs task p)).1 in
  provider r = Some (value p) /\ all_results r = None
  /\ (success r = false -> simplified_task r = task /\ is_Some (error r)
                           /\ usage r = None)
  /\ (success r = true -> error r = None /\ field r = None
                          /\ is_Some (usage r))
  /\ (is_Some (field r) -> success r = false).
Proof.
  unfold simplify_task_async.
  destruct (configs !! p) as [config|] eqn:Hp.
  - destruct (valid (_validate_config p config)) eqn:Hv; simpl.
    + destruct (call_provider_sound w p task config)
        as (Hn & Hf & Ha & Hfail & Hok).
      repeat split; try done; try (by apply Hfail); try (by apply Hok).
      intros Hfield. rewrite Hf in Hfield. by destruct Hfield.
    + destruct (validate_config_well_formed p config Hv) as (e & f & He & _).
      repeat split; first [done | rewrite He; eauto].
  - simpl. repeat split; first [done | eauto].
Qed.

Lemma call_provider_calls w p task config :
  (length (run w (call_provider p task config)).2 <= 1)%nat
  /\ (is_stub p = true -> (run w (call_provider p task config)).2 = []).
Proof.
  destruct p; simpl call_provider;
    unfold _call_deepseek, _call_doubao, _call_yuanbao, _call_openai,
      _call_gemini, _call_claude, _call_glm, _call_wenxin, _call_tongyi;
    rewrite ?http_call_calls, ?sdk_call_calls;
    (split; [repeat case_match; first [apply record_length | simpl; lia]
            |first [done|by intros [=]]]).
Qed.

Lemma simplify_task_async_calls w configs task p :
  (length (run w (simplify_task_async configs task p)).2 <= 1)%nat.
Proof.
  unfold simplify_task_async.
  destruct (configs !! p) as [config|]; [|simpl; lia].
  destruct (valid _); simpl; [apply call_provider_calls|lia].
Qed.

(** X7.  The single-provider path makes at most one call to the outside world,
    and none at all for a provider that has no configuration, whose
    configuration is not valid, or whose adapter is not implemented. *)
Theorem single_provider_at_most_one_call w configs task p :
  (length (run w (simplify_task_async configs task p)).2 <= 1)%nat
  /\ (configs !! p = None -> (run w (simplify_task_async configs task p)).2 = [])
  /\ (forall config, configs !! p = Some config ->
        valid (_validate_config p config) = false ->
        (run w (simplify_task_async configs task p)).2 = [])
  /\ (is_stub p = true -> (run w (simplify_task_async configs task p)).2 = []).
Proof.
  assert (Hcalls := call_provider_calls w p task).
  split; [apply simplify_task_async_calls|].
  unfold simplify_task_async. repeat split.
  - by intros ->.
  - intros config -> ->. done.
  - intros Hs. destruct (configs !! p) as [config|]; [|done].
    destruct (valid _); simpl; [by apply Hcalls|done].
Qed.

(** X8.  The adapters of gemini, claude and glm are not implemented: for these
    providers the single-provider path never succeeds and never calls the
    outside world, the task comes back unchanged, and with a valid
    configuration the error is the adapter's fixed message. *)
Theorem stub_provider_never_succeeds w configs task p :
  is_stub p = true ->
  let r := (run w (simplify_task_async configs task p)).1 in
  success r = false /\ simplified_task r = task
  /\ (run w (simplify_task_async configs task p)).2 = []
  /\ (forall config, configs !! p = Some config ->
        valid (_validate_config p config) = true ->
        error r = Some (match p with
                        | GEMINI => u8 "Gemini API调用待实现"
                        | CLAUDE => u8 "Claude API调用待实现"
                        | _ => u8 "GLM API调用待实现"
                        end)).
Proof.
  intros Hs. unfold simplify_task_async.
  destruct (configs !! p) as [config|] eqn:Hp.
  - destruct (valid (_validate_config p config)) eqn:Hv; simpl.
    + destruct p; try discriminate; simpl; repeat split; done.
    + repeat split; try done. intros ? [= <-] ?. congruence.
  - simpl. repeat split; done.
Qed.

(** *** With a valid configuration the request is always built *)

Lemma valid_has_strings p config :
  valid (_validate_config p config) = true ->
  exists k u, config !! u8 "api_key" = Some (PStr k)
              /\ config !! u8 "base_url" = Some (PStr u).
Proof.
  intros ((k & Hk & _) & (u & Hu & _) & _)%valid_iff_fields. eauto.
Qed.

Lemma chat_request_ok default_model task config a b :
  config !! u8 "api_key" = Some a -> config !! u8 "base_url" = Some b ->
  exists req, chat_request default_model task config = Ok req.
Proof.
  intros Ha Hb. unfold chat_request, dict_item. rewrite Ha, Hb. by eexists.
Qed.

Lemma wenxin_request_ok task config a u :
  config !! u8 "api_key" = Some a -> config !! u8 "base_url" = Some (PStr u) ->
  exists req, wenxin_request task config = Ok req.
Proof.
  intros Ha Hb. unfold wenxin_request, dict_item. rewrite Ha, Hb.
  unfold mbind, exc_bind. simpl py_in. cbv beta iota.
  destruct (Str.contains u _); by eexists.
Qed.

Lemma sdk_request_ok task config a b :
  config !! u8 "api_key" = Some a -> config !! u8 "base_url" = Some b ->
  (exists req, yuanbao_request task config = Ok req)
  /\ (exists req, tongyi_request task config = Ok req).
Proof.
  intros Ha Hb. unfold yuanbao_request, tongyi_request, dict_item.
  rewrite Ha, Hb. split; by eexists.
Qed.

(** X9.  With a valid configuration, an HTTP provider whose endpoint answers
    with a status other than 200 gives a failure that quotes the status
    and the body of the answer, and carries the task unchanged. *)
Theorem http_error_status_reported w configs task p config response body :
  is_http p = true ->
  configs !! p = Some config ->
  valid (_validate_config p config) = true ->
  (forall req, http_post w req = Ok response) ->
  status response <> 200 -> text response = Ok body ->
  (run w (simplify_task_async configs task p)).1
  = failure (value p)
      (u8 "API调用失败 (" ++ Str.of_Z (status response) ++ u8 "): " ++ body)
      task.
Proof.
  intros Hhttp Hp Hv Hw Hstatus Hbody.
  destruct (valid_has_strings p config Hv) as (k & u & Hk & Hu).
  unfold simplify_task_async. rewrite Hp, Hv. simpl negb. cbv iota.
  assert (Hchat : forall name,
            chat_response name task response
            = Ok (failure name (api_failed response body) task)).
  { intros name. unfold chat_response.
    destruct (Z.eqb_spec (status response) 200); [done|]. by rewrite Hbody. }
  assert (Hwenxin : wenxin_response task response
                    = Ok (failure (u8 "wenxin") (api_failed response body) task)).
  { unfold wenxin_response.
    destruct (Z.eqb_spec (status response) 200); [done|]. by rewrite Hbody. }
  destruct p; try discriminate; simpl call_provider;
    unfold _call_deepseek, _call_doubao, _call_openai, _call_wenxin;
    rewrite run_http_call.
  - destruct (chat_request_ok (u8 "deepseek-chat") task config _ _ Hk Hu)
      as [req ->]. rewrite Hw. unfold mbind, exc_bind. by rewrite Hchat.
  - destruct (chat_request_ok (u8 "ep-20241219143532-qz8wg") task config
                _ _ Hk Hu) as [req ->].
    rewrite Hw. unfold mbind, exc_bind. by rewrite Hchat.
  - destruct (chat_request_ok (u8 "gpt-3.5-turbo") task config _ _ Hk Hu)
      as [req ->]. rewrite Hw. unfold mbind, exc_bind. by rewrite Hchat.
  - destruct (wenxin_request_ok task config _ _ Hk Hu) as [req ->].
    rewrite Hw. unfold mbind, exc_bind. by rewrite Hwenxin.
Qed.

(** X10.  With a valid configuration, a call that ends in a timeout gives a
    failure with the timeout message of the adapter: the one of deepseek
    quotes the configured timeout, the adapters of doubao, openai, wenxin
    and tongyi share one fixed message.  The task comes back unchanged. *)
Theorem timeout_reported w configs task p config e :
  p ∈ [DEEPSEEK; DOUBAO; OPENAI; WENXIN; TONGYI] ->
  configs !! p = Some config ->
  valid (_validate_config p config) = true ->
  (forall req, http_post w req = Raise e) ->
  (forall req, chat_create w req = Raise e) ->
  exn_cls e = TimeoutError ->
  (run w (simplify_task_async configs task p)).1
  = failure (value p)
      match p with
      | DEEPSEEK =>
        u8 "DeepSeek API请求超时("
        ++ py_str (dict_get config (u8 "timeout") (PInt 30))
        ++ u8 "秒)，请检查网络或增加timeout设置"
      | _ => u8 "请求超时，请检查网络连接或增加超时时间"
      end
      task.
Proof.
  intros Hin Hp Hv Hw Hsdk He.
  destruct (valid_has_strings p config Hv) as (k & u & Hk & Hu).
  unfold simplify_task_async. rewrite Hp, Hv. simpl negb. cbv iota.
  assert (Ht : is_timeout e = true) by (unfold is_timeout; by rewrite He).
  assert (p = DEEPSEEK \/ p = DOUBAO \/ p = OPENAI \/ p = WENXIN \/ p = TONGYI)
    as [->|[->|[->|[->| ->]]]].
  { repeat (apply elem_of_cons in Hin as [->|Hin]; [tauto|]).
    by apply elem_of_nil in Hin. }
  all: simpl call_provider;
    unfold _call_deepseek, _call_doubao, _call_openai, _call_wenxin,
      _call_tongyi;
    rewrite ?run_http_call, ?run_sdk_call.
  - destruct (chat_request_ok (u8 "deepseek-chat") task config _ _ Hk Hu)
      as [req ->]. rewrite Hw. unfold mbind, exc_bind.
    unfold deepseek_handler. by rewrite Ht.
  - destruct (chat_request_ok (u8 "ep-20241219143532-qz8wg") task config
                _ _ Hk Hu) as [req ->].
    rewrite Hw. unfold mbind, exc_bind. unfold plain_handler. by rewrite Ht.
  - destruct (chat_request_ok (u8 "gpt-3.5-turbo") task config _ _ Hk Hu)
      as [req ->]. rewrite Hw. unfold mbind, exc_bind.
    unfold plain_handler. by rewrite Ht.
  - destruct (wenxin_request_ok task config _ _ Hk Hu) as [req ->].
    rewrite Hw. unfold mbind, exc_bind. unfold plain_handler. by rewrite Ht.
  - destruct (sdk_request_ok task config _ _ Hk Hu) as [_ [req ->]].
    rewrite Hsdk. unfold mbind, exc_bind. unfold plain_handler. by rewrite Ht.
Qed.

(** X11.  Validation strips the key and the address, the request does not: with
    a valid configuration the adapters of deepseek, doubao and openai build
    one request, to the configured [base_url] followed by
    "/chat/completions", with the configured [api_key] after "Bearer ",
    both as they stand in the configuration.  No other request is ever
    made; this one is made exactly when the attempt gets as far as
    [session.post], as it does whenever the world answers the request, and
    not when the [import] or the creation of the session fails. *)
Theorem chat_request_sends_configured_strings w configs task p config :
  p ∈ [DEEPSEEK; DOUBAO; OPENAI] ->
  configs !! p = Some config ->
  valid (_validate_config p config) = true ->
  exists k u req,
    config !! u8 "api_key" = Some (PStr k)
    /\ config !! u8 "base_url" = Some (PStr u)
    /\ url req = PStr (u ++ u8 "/chat/completions")
    /\ headers req = [(u8 "Authorization", u8 "Bearer " ++ k);
                      (u8 "Content-Type", u8 "application/json")]
    /\ total_timeout req = dict_get config (u8 "timeout") (PInt 30)
    /\ (run w (simplify_task_async configs task p)).2
       = (if made w (HttpCall req) then [HttpCall req] else [])
    /\ (forall response, http_post w req = Ok response ->
          (run w (simplify_task_async configs task p)).2 = [HttpCall req])
    /\ (forall e, http_post w req = Raise e ->
          fails_before w (HttpCall req) = true ->
          (run w (simplify_task_async configs task p)).2 = []).
Proof.
  intros Hin Hp Hv.
  destruct (valid_has_strings p config Hv) as (k & u & Hk & Hu).
  exists k, u.
  assert (Hreq : forall d,
            chat_request d task config
            = Ok {| url := PStr (u ++ u8 "/chat/completions");
                    headers := [(u8 "Authorization", u8 "Bearer " ++ k);
                                (u8 "Content-Type", u8 "application/json")];
                    json_data :=
                      PDict [(u8 "model", dict_get config (u8 "model") (PStr d));
                             (u8 "messages", chat_messages task);
                             (u8 "max_tokens",
                              dict_get config (u8 "max_tokens") (PInt 200));
                             (u8 "temperature",
                              dict_get config (u8 "temperature")
                                (PFloat float_0_1))];
                    total_timeout := dict_get config (u8 "timeout") (PInt 30) |}).
  { intros d. unfold chat_request, dict_item. by rewrite Hk, Hu. }
  unfold simplify_task_async. rewrite Hp, Hv. simpl negb. cbv iota.
  assert (p = DEEPSEEK \/ p = DOUBAO \/ p = OPENAI) as [->|[->| ->]].
  { repeat (apply elem_of_cons in Hin as [->|Hin]; [tauto|]).
    by apply elem_of_nil in Hin. }
  all: simpl call_provider; unfold _call_deepseek, _call_doubao, _call_openai;
    rewrite http_call_calls, Hreq;
    match goal with |- context [record _ (HttpCall ?r) _] => exists r end;
    (split; [done|]); (split; [done|]); (split; [reflexivity|]);
    (split; [reflexivity|]); (split; [reflexivity|]);
    unfold record, made; cbn [url headers total_timeout];
    (split; [done|]); split.
  all: try (intros response ->; done).
  all: intros e -> ->; done.
Qed.

End MoreAdapterFacts.

(** ** More on the multi-provider path *)

Section MoreMultiFacts.
Context `{PyBuiltins}.

Lemma run_gather_calls {A} w (tasks : list (prog A)) :
  (run w (gather tasks)).2 = concat (map (fun t => (run w t).2) tasks).
Proof.
  induction tasks as [|t tasks IH]; simpl; [done|].
  rewrite run_bind. simpl. rewrite run_bind. simpl.
  by rewrite IH, app_nil_r.
Qed.

(** The calls of the multi-provider path, provider by provider. *)
Lemma multiple_providers_calls_concat w configs task providers :
  (run w (simplify_task_multiple_providers configs task providers)).2
  = concat (map (fun p => (run w (simplify_task_async configs task p)).2)
                providers).
Proof.
  unfold simplify_task_multiple_providers. rewrite run_bind. simpl.
  by rewrite app_nil_r, run_gather_calls, map_map.
Qed.

(** X12.  The multi-provider path makes the calls of the single-provider path
    of each provider, in the order of the providers, and nothing more: at
    most one call for each provider, and no second attempt. *)
Theorem multiple_providers_calls w configs task providers :
  (run w (simplify_task_multiple_providers configs task providers)).2
  = concat (map (fun p => (run w (simplify_task_async configs task p)).2)
                providers)
  /\ (length (run w (simplify_task_multiple_providers configs task providers)).2
      <= length providers)%nat.
Proof.
  split; [apply multiple_providers_calls_concat|].
  rewrite multiple_providers_calls_concat.
  induction providers as [|p providers IH]; simpl; [done|].
  rewrite length_app.
  pose proof (simplify_task_async_calls w configs task p).
  lia.
Qed.


End MoreMultiFacts.

(** ** More on the manager *)

Lemma provider_of_value_value p : provider_of_value (value p) = Some p.
Proof. by destruct p; vm_compute. Qed.

Lemma items_from_assoc d : forall seen k,
  assoc (items_from seen d) k = if bool_decide (k ∈ seen) then None else assoc d k.
Proof.
  induction d as [|[k' v] d IH]; intros seen k; simpl.
  - by case_bool_decide.
  - destruct (bool_decide (k' ∈ seen)) eqn:Hseen.
    + rewrite IH. apply bool_decide_eq_true in Hseen.
      case_bool_decide; [done|]. case_bool_decide; [by subst|done].
    + simpl. apply bool_decide_eq_false in Hseen.
      case_bool_decide as Hk.
      * subst. by rewrite bool_decide_eq_false_2.
      * rewrite IH. do 2 case_bool_decide; try done.
        -- set_solver.
        -- set_solver.
Qed.

Lemma items_from_keys d : forall seen,
  NoDup (items_from seen d).*1
  /\ (forall k, k ∈ (items_from seen d).*1 -> k ∉ seen).
Proof.
  induction d as [|[k' v] d IH]; intros seen; simpl.
  - split; [constructor|]. by intros k ?%elem_of_nil.
  - case_bool_decide as Hseen.
    + apply IH.
    + destruct (IH (k' :: seen)) as [Hnd Hnot]. simpl. split.
      * constructor; [|done]. intros Hin%Hnot. set_solver.
      * intros k [->|Hin%Hnot]%elem_of_cons; [done|set_solver].
Qed.

Lemma assoc_None d k : k ∉ d.*1 -> assoc d k = None.
Proof.
  induction d as [|[k' v] d IH]; simpl; [done|].
  intros Hk. case_bool_decide; [set_solver|]. apply IH. set_solver.
Qed.

Lemma foldl_load_entry l : forall configs p,
  NoDup l.*1 ->
  foldl load_entry configs l !! p
  = match assoc l (value p) with
    | Some v => Some v
    | None => configs !! p
    end.
Proof.
  induction l as [|[k v] l IH]; intros configs p Hnd; simpl; [done|].
  apply NoDup_cons in Hnd as [Hk Hnd]. rewrite IH by done.
  unfold load_entry. simpl. case_bool_decide as Hkp.
  - subst. rewrite provider_of_value_value, (assoc_None l) by done.
    by rewrite lookup_insert_eq.
  - destruct (assoc l (value p)); [done|].
    destruct (provider_of_value k) as [q|] eqn:Hq; [|done].
    apply provider_of_value_name in Hq. rewrite lookup_insert_ne; [done|].
    by intros ->.
Qed.

Lemma list_to_map_assoc (d : list (pystr * pyval)) k :
  (list_to_map d : gmap pystr pyval) !! k = assoc d k.
Proof.
  induction d as [|[k' v] d IH]; simpl; [done|].
  case_bool_decide; subst.
  - by rewrite lookup_insert_eq.
  - by rewrite lookup_insert_ne.
Qed.

(** X14.  [AIProvider(name)] and [provider.value] are inverse to each other: a
    name is the value of at most one provider, and of the provider it is
    turned into. *)
Theorem provider_name_round_trip name p :
  provider_of_value name = Some p <-> name = value p.
Proof.
  split; [apply provider_of_value_name|].
  intros ->. apply provider_of_value_value.
Qed.

(** X15.  What [load_config] loads for a provider is what the JSON object of the
    file has under the provider's name, and nothing when the name is not
    there; entries under any other name are dropped.  An entry that is a
    JSON object is a configuration with the values of that object under
    its keys.  A file that is missing, cannot be read, or does not hold a
    JSON object gives the empty configuration. *)
Theorem load_config_lookup :
  (forall d p, load_config (Some (Ok (PDict d))) !! p = assoc d (value p))
  /\ (forall c config k, as_config (PDict c) = Some config ->
        config !! k = assoc c k)
  /\ (forall file, (forall d, file <> Some (Ok (PDict d))) ->
        load_config file = ∅).
Proof.
  repeat split.
  - intros d p. unfold load_config, dict_items.
    rewrite foldl_load_entry by apply items_from_keys.
    rewrite items_from_assoc, lookup_empty.
    rewrite bool_decide_eq_false_2 by apply not_elem_of_nil.
    by destruct (assoc d (value p)).
  - intros c config k [= <-]. apply list_to_map_assoc.
  - intros file Hfile. destruct file as [[v|e]|]; [|done..].
    destruct v; try done. by destruct (Hfile d).
Qed.

Lemma dict_store_lookup configs p :
  dict_store configs !! p = configs !! p ≫= as_config.
Proof. apply lookup_omap. Qed.

(** The loop over the providers: who is listed when it ends, and when it
    does not end. *)
Lemma available_among_elem configs ps : forall l,
  available_among configs ps = Ok l ->
  forall p, p ∈ l <-> p ∈ ps /\ exists c, configured configs p = Ok c
                                         /\ truthy c = true.
Proof.
  induction ps as [|q ps IH]; intros l E p; simpl in E.
  - injection E as <-.
    split; [by intros ?%elem_of_nil|by intros [?%elem_of_nil _]].
  - destruct (configured configs q) as [c|e] eqn:Eq; [|done].
    unfold mbind, exc_bind in E.
    destruct (available_among configs ps) as [l'|e] eqn:El; [|done].
    injection E as <-. specialize (IH _ eq_refl p).
    destruct (truthy c) eqn:Ht.
    + rewrite !elem_of_cons, IH. split.
      * intros [->|[Hp Hc]]; [split; [by left|eauto]|split; [by right|done]].
      * intros [[->|Hp] Hc]; [by left|by right].
    + rewrite elem_of_cons, IH. split.
      * intros [Hp Hc]. split; [by right|done].
      * intros [[->|Hp] (c' & Hc' & Ht')]; [congruence|]. split; [done|eauto].
Qed.

Lemma available_among_tests configs ps : forall l,
  available_among configs ps = Ok l ->
  forall p, p ∈ ps -> exists c, configured configs p = Ok c.
Proof.
  induction ps as [|q ps IH]; intros l E p Hp; simpl in E.
  - by apply elem_of_nil in Hp.
  - destruct (configured configs q) as [c|e] eqn:Eq; [|done].
    unfold mbind, exc_bind in E.
    destruct (available_among configs ps) as [l'|e] eqn:El; [|done].
    apply elem_of_cons in Hp as [->|Hp]; [eauto|]. by apply (IH l').
Qed.

Lemma available_among_error configs ps e :
  available_among configs ps = Raise e ->
  exists p v, p ∈ ps /\ configs !! p = Some v /\ (forall d, v <> PDict d)
    /\ e = Exn AttributeError
             (u8 "'" ++ type_name v ++ u8 "' object has no attribute 'get'").
Proof.
  induction ps as [|q ps IH]; simpl; [done|].
  destruct (configured_cases configs q)
    as [[_ ->]|[(d & _ & ->)|(v & Hv & Hd & ->)]]; unfold mbind, exc_bind.
  1,2: destruct (available_among configs ps) as [l'|e'] eqn:El; [done|];
    intros [= <-]; destruct (IH eq_refl) as (p & v & Hp & ?);
    exists p, v; split; [by right|done].
  intros [= <-]. exists q, v. split; [left|done].
Qed.

(** The two loops stop at the same entry, with the same exception. *)
Lemma available_among_raise configs ps : forall st e,
  available_among configs ps = Raise e <-> status_among configs ps st = Raise e.
Proof.
  induction ps as [|q ps IH]; intros st e; simpl; [done|].
  destruct (configured configs q) as [c|e']; unfold mbind, exc_bind;
    cbv beta iota; [|by split; intros [= ->]].
  rewrite <- (IH (<[value q := c]> st)).
  by destruct (available_among configs ps).
Qed.

Lemma objects_tested configs :
  (forall p v, configs !! p = Some v -> exists d, v = PDict d)
  <-> exists available, available_among configs all_providers = Ok available.
Proof.
  split.
  - intros Hobj.
    destruct (available_among configs all_providers) as [l|e] eqn:E; [eauto|].
    apply available_among_error in E as (p & v & _ & Hp & Hv & _).
    destruct (Hobj p v Hp) as [d ->]. by destruct (Hv d).
  - intros [l E] p v Hp.
    destruct (available_among_tests _ _ _ E p (all_providers_elem p)) as [c Hc].
    destruct (configured_cases configs p)
      as [[Hn _]|[(d & Hd & _)|(v' & _ & _ & Hr)]]; [congruence| |congruence].
    exists d. congruence.
Qed.

Lemma get_available_providers_ok configs names :
  get_available_providers configs = Ok names
  <-> exists available, available_among configs all_providers = Ok available
                        /\ names = value <$> available.
Proof.
  unfold get_available_providers.
  destruct (available_among configs all_providers) as [l|e];
    unfold mbind, exc_bind.
  - split; [intros [= <-]; eauto|]. by intros (? & [= <-] & ->).
  - split; [done|]. by intros (? & ? & _).
Qed.

Lemma get_available_providers_raise configs e :
  get_available_providers configs = Raise e
  <-> available_among configs all_providers = Raise e.
Proof.
  unfold get_available_providers.
  destruct (available_among configs all_providers);
    unfold mbind, exc_bind; cbv beta iota;
    split; intros E; first [discriminate | by injection E as ->].
Qed.

(** Who passes the test: the providers whose entry is an object with a
    true value under [api_key]. *)
Lemma test_passed configs p :
  (exists c, configured configs p = Ok c /\ truthy c = true)
  <-> exists d v, configs !! p = Some (PDict d)
                  /\ assoc d (u8 "api_key") = Some v /\ truthy v = true.
Proof.
  destruct (configured_cases configs p)
    as [[Hn ->]|[(d & Hd & ->)|(v' & Hv' & Hnd & ->)]].
  - split; [by intros (c & [= <-] & ?)|]. intros (? & ? & ? & _). congruence.
  - split.
    + intros (c & [= <-] & Ht). exists d.
      destruct (assoc d (u8 "api_key")) as [v|]; [eauto|done].
    + intros (d' & v & Hd' & Hv & Ht). assert (d' = d) as -> by congruence.
      rewrite Hv. eauto.
  - split; [by intros (c & ? & _)|].
    intros (d & ? & Hd & _). destruct (Hnd d). congruence.
Qed.

(** X16.  [get_available_providers] and [get_provider_status] make the same
    test.  When they return, a provider is listed as available exactly
    when its entry of the status dictionary is true for Python, and that
    is exactly when the provider has an entry in the store that is an
    object whose [api_key] is a true value.  They return exactly when every
    entry of the store is an object; on a store with another entry both
    raise the [AttributeError] of the first such entry. *)
Theorem available_iff_status_true configs :
  (forall names status,
      get_available_providers configs = Ok names ->
      get_provider_status configs = Ok status ->
      forall p,
        (value p ∈ names
         <-> exists v, status !! value p = Some v /\ truthy v = true)
        /\ (value p ∈ names
            <-> exists d v, configs !! p = Some (PDict d)
                            /\ assoc d (u8 "api_key") = Some v
                            /\ truthy v = true))
  /\ ((forall p v, configs !! p = Some v -> exists d, v = PDict d)
      <-> exists names status,
            get_available_providers configs = Ok names
            /\ get_provider_status configs = Ok status)
  /\ (forall e, get_available_providers configs = Raise e
                <-> get_provider_status configs = Raise e)
  /\ (forall e, get_available_providers configs = Raise e ->
        exists p v, configs !! p = Some v /\ (forall d, v <> PDict d)
          /\ e = Exn AttributeError
                   (u8 "'" ++ type_name v
                    ++ u8 "' object has no attribute 'get'")).
Proof.
  assert (Hraise : forall e, get_available_providers configs = Raise e
                             <-> get_provider_status configs = Raise e).
  { intros e. rewrite get_available_providers_raise.
    apply available_among_raise. }
  split; [|split; [|split; [exact Hraise|]]].
  - intros names status (l & El & ->)%get_available_providers_ok Es p.
    assert (Hin : value p ∈ value <$> l
                  <-> exists c, configured configs p = Ok c /\ truthy c = true).
    { rewrite list_elem_of_fmap. split.
      - intros (q & ->%value_inj & Hq).
        by apply (available_among_elem _ _ _ El).
      - intros Hc. exists p. split; [done|].
        apply (available_among_elem _ _ _ El). split; [|done].
        apply all_providers_elem. }
    split; rewrite Hin; [|apply test_passed].
    destruct (provider_status_lookup _ _ p Es) as (c & Hc & Hs).
    split.
    + intros (c' & Hc' & Ht). exists c. split; [done|]. congruence.
    + intros (v & Hv & Ht). exists c. split; [done|]. congruence.
  - rewrite objects_tested. split.
    + intros [l El].
      destruct (get_provider_status configs) as [status|e] eqn:Es.
      * exists (value <$> l), status. split; [|done].
        apply get_available_providers_ok. eauto.
      * pose proof (proj2 (Hraise e) eq_refl) as Hr.
        apply get_available_providers_raise in Hr. congruence.
    + intros (names & status & (l & El & _)%get_available_providers_ok & _).
      eauto.
  - intros e He%get_available_providers_raise.
    apply available_among_error in He as (p & v & _ & ?). eauto.
Qed.

Section MoreManagerFacts.
Context `{PyBuiltins}.

(** X17.  The availability test does not strip the key, validation does: a
    provider whose [api_key] is a non-empty string of whitespace is listed
    as available whenever the list is returned, as it is when every entry
    of the store is an object; its configuration is rejected with field
    "api_key", so that the single-provider path fails for it without a
    call. *)
Theorem blank_key_available_but_invalid w configs task p d s :
  configs !! p = Some (PDict d) ->
  assoc d (u8 "api_key") = Some (PStr s) -> s <> [] -> blank s ->
  (forall names, get_available_providers configs = Ok names ->
                 value p ∈ names)
  /\ ((forall q v, configs !! q = Some v -> exists d', v = PDict d') ->
      exists names, get_available_providers configs = Ok names
                    /\ value p ∈ names)
  /\ _validate_config p (list_to_map d)
     = invalid (value p ++ u8 "平台的API密钥为空，请设置有效的API密钥")
               (u8 "api_key")
  /\ run w (simplify_task configs task p)
     = ({| success := false; provider := Some (value p);
           simplified_task := task;
           error := Some (value p ++ u8 "平台的API密钥为空，请设置有效的API密钥");
           field := Some (u8 "api_key"); usage := None;
           all_results := None |}, []).
Proof.
  intros Hp Hk Hs Hblank.
  assert (Hv : _validate_config p (list_to_map d)
               = invalid (value p ++ u8 "平台的API密钥为空，请设置有效的API密钥")
                         (u8 "api_key")).
  { unfold _validate_config, validate_body, check_api_key, dict_get.
    rewrite list_to_map_assoc, Hk. simpl py_strip.
    by rewrite (proj2 (strip_nil_iff s) Hblank). }
  assert (Hlisted : forall names, get_available_providers configs = Ok names ->
                                  value p ∈ names).
  { intros names (l & El & ->)%get_available_providers_ok.
    apply list_elem_of_fmap. exists p. split; [done|].
    apply (available_among_elem _ _ _ El). split; [apply all_providers_elem|].
    apply test_passed. exists d, (PStr s). repeat split; try done.
    simpl. by rewrite bool_decide_eq_false_2. }
  split; [exact Hlisted|]. split; [|split; [exact Hv|]].
  - intros [l El]%objects_tested. exists (value <$> l).
    assert (E : get_available_providers configs = Ok (value <$> l))
      by (apply get_available_providers_ok; eauto).
    split; [done|]. by apply Hlisted.
  - unfold simplify_task. rewrite Hp. cbn [py_get].
    unfold simplify_task_async. rewrite dict_store_lookup, Hp.
    cbn [mbind option_bind as_config]. by rewrite Hv.
Qed.

(** X18.  Called with the name of a provider, the manager takes the
    single-provider path of that provider: on an entry of the store that
    is an object, and on a missing entry, it is [simplify_task_async]; an
    entry that is not an object is answered with the failure of the
    validation handler, field "unknown", and no call.  Called with a name
    that is not one of the nine, the manager raises the [ValueError] of
    [AIProvider(name)]: no result dictionary is returned. *)
Theorem manager_named_provider configs task name :
  name <> [] ->
  (forall p, name = value p ->
     exists m, manager_simplify_task configs task (Some name) = Ok m
       /\ (forall w,
             (forall v, configs !! p = Some v -> exists d, v = PDict d) ->
             run w m
             = (Single (run w (simplify_task_async (dict_store configs)
                                 task p)).1,
                (run w (simplify_task_async (dict_store configs) task p)).2))
       /\ (forall w v,
             configs !! p = Some v -> (forall d, v <> PDict d) ->
             run w m
             = (Single {| success := false; provider := Some (value p);
                          simplified_task := task;
                          error := Some (u8 "配置验证异常: "
                                         ++ (u8 "'" ++ type_name v
                                             ++ u8 "' object has no attribute 'get'"));
                          field := Some (u8 "unknown"); usage := None;
                          all_results := None |}, [])))
  /\ ((forall p, name <> value p) ->
      manager_simplify_task configs task (Some name)
      = Raise (Exn ValueError
                 (repr_obj (PStr name) ++ u8 " is not a valid AIProvider"))).
Proof.
  intros Hname. unfold manager_simplify_task. simpl truthy.
  rewrite (bool_decide_eq_false_2 _ Hname). simpl negb. cbv iota. split.
  - intros p ->. rewrite provider_of_value_value. eexists. split; [done|].
    split.
    + intros w Hobj. rewrite run_bind. unfold simplify_task.
      destruct (configs !! p) as [v|] eqn:Hp.
      * destruct (Hobj v eq_refl) as [d ->]. cbn [py_get].
        simpl. by rewrite app_nil_r.
      * simpl. by rewrite app_nil_r.
    + intros w v Hp Hv. rewrite run_bind. unfold simplify_task. rewrite Hp.
      destruct v; try done. by destruct (Hv d).
  - intros Hnone. destruct (provider_of_value name) as [p|] eqn:Hp; [|done].
    apply provider_of_value_name in Hp. by destruct (Hnone p).
Qed.

(** X19.  Called without a provider, or with the empty name, the manager
    tests every provider for availability.  When an entry of the store is
    not an object, the test raises [AttributeError] and so does the
    manager.  Otherwise, with no provider available it returns a failure
    that carries the task, without a call; and with some available it
    returns what the multi-provider path selects among the results of the
    available providers, in the order of the enumeration, making their
    calls and no other. *)
Theorem manager_all_available configs task :
  manager_simplify_task configs task (Some [])
  = manager_simplify_task configs task None
  /\ (forall e, available_providers configs = Raise e ->
        manager_simplify_task configs task None = Raise e)
  /\ (forall p v, configs !! p = Some v -> (forall d, v <> PDict d) ->
        exists q v',
          configs !! q = Some v' /\ (forall d, v' <> PDict d)
          /\ manager_simplify_task configs task None
             = Raise (Exn AttributeError
                        (u8 "'" ++ type_name v'
                         ++ u8 "' object has no attribute 'get'")))
  /\ (available_providers configs = Ok [] ->
      manager_simplify_task configs task None
      = Ok (Done (Single {| success := false; provider := None;
                            simplified_task := task;
                            error := Some (u8 "没有配置可用的AI平台");
                            field := None; usage := None;
                            all_results := None |})))
  /\ (forall available,
        available_providers configs = Ok available -> available <> [] ->
        exists m, manager_simplify_task configs task None = Ok m
          /\ forall w,
             (run w m).1
             = (let '(answer, h) :=
                  select_result task available
                    (map (fun p => inl (run w (simplify_task_async
                                                 (dict_store configs) task p)).1)
                         available) in
                Multi answer h)
             /\ (run w m).2
                = concat (map (fun p => (run w (simplify_task_async
                                                  (dict_store configs) task p)).2)
                              available))
  /\ ((forall p v, configs !! p = Some v -> exists d, v = PDict d) ->
      exists available,
        available_providers configs = Ok available
        /\ forall p, p ∈ available
                     <-> exists d v, configs !! p = Some (PDict d)
                                     /\ assoc d (u8 "api_key") = Some v
                                     /\ truthy v = true).
Proof.
  assert (Hraise : forall e, available_providers configs = Raise e ->
                      manager_simplify_task configs task None = Raise e).
  { intros e He. unfold manager_simplify_task. by rewrite He. }
  split; [done|]. split; [exact Hraise|].
  split; [|split; [|split]].
  - intros p v Hp Hv.
    destruct (available_providers configs) as [l|e] eqn:E.
    + assert (Hobj : exists l, available_among configs all_providers = Ok l)
        by eauto.
      destruct (proj2 (objects_tested configs) Hobj p v Hp) as [d ->].
      by destruct (Hv d).
    + pose proof E as (q & v' & _ & Hq & Hv' & ->)%available_among_error.
      exists q, v'. split; [done|]. split; [done|]. by apply Hraise.
  - intros E. unfold manager_simplify_task. by rewrite E.
  - intros available E Hne. unfold manager_simplify_task. rewrite E.
    unfold mbind at 1, exc_bind at 1.
    destruct available as [|p ps]; [done|].
    simpl negb. cbv iota. eexists. split; [done|]. intros w.
    rewrite run_bind.
    rewrite multiple_providers_calls_concat.
    rewrite multiple_providers_select.
    destruct (select_result _ _ _) as [answer h]. simpl.
    by rewrite app_nil_r.
  - intros [l El]%objects_tested. exists l. split; [done|]. intros p.
    rewrite (available_among_elem _ _ _ El), <- test_passed.
    split; [tauto|]. intros Hc. split; [apply all_providers_elem|done].
Qed.

End MoreManagerFacts.

(** ** Instances of the further properties *)

Lemma validation_ignores_surrounding_whitespace_witness :
  u8 "api_key" ∈ [u8 "api_key"; u8 "base_url"; u8 "model"]
  /\ padded_key_config !! u8 "api_key"
     = Some (PStr ([32; 32]%N ++ u8 "sk-0123456789abcdefghij" ++ [10%N]))
  /\ valid (_validate_config DEEPSEEK padded_key_config) = true.
Proof.
  assert (Hin : u8 "api_key" ∈ [u8 "api_key"; u8 "base_url"; u8 "model"])
    by apply list_elem_of_here.
  assert (Hk : padded_key_config !! u8 "api_key"
               = Some (PStr ([32; 32]%N ++ u8 "sk-0123456789abcdefghij"
                             ++ [10%N])))
    by (vm_compute; reflexivity).
  split; [exact Hin|]. split; [exact Hk|].
  rewrite <- (@validation_ignores_surrounding_whitespace ascii_runtime
                DEEPSEEK _ _ _ Hin Hk).
  vm_compute. reflexivity.
Defined.

Lemma validation_reads_six_keys_witness :
  (u8 "note" ∉ [u8 "api_key"; u8 "base_url"; u8 "model"; u8 "timeout";
                u8 "max_tokens"; u8 "temperature"])
  /\ valid (_validate_config DEEPSEEK
              (<[u8 "note" := PList []]> deepseek_config)) = true.
Proof.
  assert (Hk : u8 "note" ∉ [u8 "api_key"; u8 "base_url"; u8 "model";
                            u8 "timeout"; u8 "max_tokens"; u8 "temperature"]).
  { intros Hin.
    repeat (apply elem_of_cons in Hin as [E|Hin];
            [vm_compute in E; discriminate|]).
    by apply elem_of_nil in Hin. }
  split; [exact Hk|].
  rewrite (proj1 (@validation_reads_six_keys ascii_runtime DEEPSEEK
                    deepseek_config _ (PList []) Hk)).
  vm_compute. reflexivity.
Defined.

Lemma valid_iff_rules_witness :
  valid (_validate_config DEEPSEEK deepseek_config) = true
  /\ string_field deepseek_config (u8 "api_key") (key_rule DEEPSEEK).
Proof.
  assert (Hv : valid (_validate_config DEEPSEEK deepseek_config) = true)
    by (vm_compute; reflexivity).
  split; [exact Hv|].
  exact (proj1 (proj1 (@valid_iff_rules ascii_runtime DEEPSEEK deepseek_config)
                      Hv)).
Defined.

Lemma temperature_nan_passes_witness :
  valid (_validate_config DEEPSEEK deepseek_config) = true
  /\ valid (_validate_config DEEPSEEK
              (<[u8 "temperature" := PFloat S754_nan]> deepseek_config)) = true.
Proof.
  assert (Hv : valid (_validate_config DEEPSEEK deepseek_config) = true)
    by (vm_compute; reflexivity).
  split; [exact Hv|].
  exact (proj1 (@temperature_nan_passes ascii_runtime DEEPSEEK
                  deepseek_config Hv)).
Defined.

Lemma float_timeout_truncated_witness :
  fractional_timeout_config !! u8 "timeout"
  = Some (PFloat (S754_finite false 601 (-1)))
  /\ float_gt_int (S754_finite false 601 (-1)) 300 = true
  /\ check_timeout fractional_timeout_config = Next tt.
Proof.
  assert (Hc : fractional_timeout_config !! u8 "timeout"
               = Some (PFloat (S754_finite false 601 (-1))))
    by (vm_compute; reflexivity).
  split; [exact Hc|]. split; [vm_compute; reflexivity|].
  apply (@float_timeout_truncated ascii_runtime _ _ _ _ Hc).
  split; vm_compute; reflexivity.
Defined.

Lemma single_provider_result_shape_witness :
  success (run busy_world
             (simplify_task_async {[ DEEPSEEK := deepseek_config ]}
                (u8 "帮我打开微信") DEEPSEEK)).1 = false
  /\ simplified_task
       (run busy_world
          (simplify_task_async {[ DEEPSEEK := deepseek_config ]}
             (u8 "帮我打开微信") DEEPSEEK)).1
     = u8 "帮我打开微信".
Proof.
  assert (Hf : success (run busy_world
                          (simplify_task_async {[ DEEPSEEK := deepseek_config ]}
                             (u8 "帮我打开微信") DEEPSEEK)).1 = false)
    by (vm_compute; reflexivity).
  split; [exact Hf|].
  destruct (@single_provider_result_shape ascii_runtime busy_world
              {[ DEEPSEEK := deepseek_config ]} (u8 "帮我打开微信") DEEPSEEK)
    as (_ & _ & Hfail & _).
  exact (proj1 (Hfail Hf)).
Defined.

Lemma single_provider_at_most_one_call_witness :
  ({[ DEEPSEEK := blank_key_config ]} : gmap AIProvider (gmap pystr pyval))
  !! DEEPSEEK = Some blank_key_config
  /\ valid (_validate_config DEEPSEEK blank_key_config) = false
  /\ (run polished_world
        (simplify_task_async {[ DEEPSEEK := blank_key_config ]}
           (u8 "帮我打开微信") DEEPSEEK)).2 = [].
Proof.
  assert (Hp : ({[ DEEPSEEK := blank_key_config ]}
                : gmap AIProvider (gmap pystr pyval)) !! DEEPSEEK
               = Some blank_key_config) by (vm_compute; reflexivity).
  assert (Hv : valid (_validate_config DEEPSEEK blank_key_config) = false)
    by (vm_compute; reflexivity).
  split; [exact Hp|]. split; [exact Hv|].
  destruct (@single_provider_at_most_one_call ascii_runtime polished_world
              {[ DEEPSEEK := blank_key_config ]} (u8 "帮我打开微信") DEEPSEEK)
    as (_ & _ & Hinvalid & _).
  exact (Hinvalid _ Hp Hv).
Defined.

Lemma stub_provider_never_succeeds_witness :
  is_stub GEMINI = true
  /\ success (run polished_world
                (simplify_task_async {[ GEMINI := wenxin_config ]}
                   (u8 "帮我打开微信") GEMINI)).1 = false.
Proof.
  assert (Hs : is_stub GEMINI = true) by reflexivity.
  split; [exact Hs|].
  exact (proj1 (@stub_provider_never_succeeds ascii_runtime polished_world
                  {[ GEMINI := wenxin_config ]} (u8 "帮我打开微信") GEMINI Hs)).
Defined.

Lemma http_error_status_reported_witness :
  valid (_validate_config DEEPSEEK deepseek_config) = true
  /\ (run busy_world
        (simplify_task_async {[ DEEPSEEK := deepseek_config ]}
           (u8 "帮我打开微信") DEEPSEEK)).1
     = failure (value DEEPSEEK)
         (u8 "API调用失败 ("
          ++ Str.of_Z (status {| status := 503;
                                 json := Raise (Exn ValueError (u8 "no JSON"));
                                 text := Ok (u8 "busy") |})
          ++ u8 "): " ++ u8 "busy")
         (u8 "帮我打开微信").
Proof.
  assert (Hv : valid (_validate_config DEEPSEEK deepseek_config) = true)
    by (vm_compute; reflexivity).
  split; [exact Hv|].
  apply (@http_error_status_reported ascii_runtime busy_world
           {[ DEEPSEEK := deepseek_config ]} (u8 "帮我打开微信") DEEPSEEK
           deepseek_config).
  - reflexivity.
  - vm_compute. reflexivity.
  - exact Hv.
  - intros req. reflexivity.
  - simpl. lia.
  - reflexivity.
Defined.

Lemma timeout_reported_witness :
  valid (_validate_config TONGYI wenxin_config) = true
  /\ error (run timeout_world
              (simplify_task_async {[ TONGYI := wenxin_config ]}
                 (u8 "帮我打开微信") TONGYI)).1
     = Some (u8 "请求超时，请检查网络连接或增加超时时间").
Proof.
  assert (Hv : valid (_validate_config TONGYI wenxin_config) = true)
    by (vm_compute; reflexivity).
  split; [exact Hv|].
  rewrite (@timeout_reported ascii_runtime timeout_world
             {[ TONGYI := wenxin_config ]} (u8 "帮我打开微信") TONGYI
             wenxin_config (Exn TimeoutError [])).
  - reflexivity.
  - repeat first [apply list_elem_of_here | apply list_elem_of_further].
  - vm_compute. reflexivity.
  - exact Hv.
  - intros req. reflexivity.
  - intros req. reflexivity.
  - reflexivity.
Defined.

Lemma chat_request_sends_configured_strings_witness :
  valid (_validate_config DEEPSEEK padded_key_config) = true
  /\ exists req,
      url req = PStr (u8 "https://api.deepseek.com" ++ u8 "/chat/completions")
      /\ headers req
         = [(u8 "Authorization",
             u8 "Bearer " ++ ([32; 32]%N ++ u8 "sk-0123456789abcdefghij"
                              ++ [10%N]));
            (u8 "Content-Type", u8 "application/json")]
      /\ (run polished_world
            (simplify_task_async {[ DEEPSEEK := padded_key_config ]}
               (u8 "帮我打开微信") DEEPSEEK)).2 = [HttpCall req]
      /\ (run bare_world
            (simplify_task_async {[ DEEPSEEK := padded_key_config ]}
               (u8 "帮我打开微信") DEEPSEEK)).2 = [].
Proof.
  assert (Hv : valid (_validate_config DEEPSEEK padded_key_config) = true)
    by (vm_compute; reflexivity).
  split; [exact Hv|].
  destruct (@chat_request_sends_configured_strings ascii_runtime
              polished_world {[ DEEPSEEK := padded_key_config ]}
              (u8 "帮我打开微信") DEEPSEEK padded_key_config)
    as (k & u & req & Hk & Hu & Hurl & Hheaders & _ & _ & Hanswered & _).
  - apply list_elem_of_here.
  - vm_compute. reflexivity.
  - exact Hv.
  - vm_compute in Hk. injection Hk as <-.
    vm_compute in Hu. injection Hu as <-.
    exists req. split; [rewrite Hurl; vm_compute; reflexivity|].
    split; [rewrite Hheaders; vm_compute; reflexivity|].
    split; [exact (Hanswered _ eq_refl)|].
    vm_compute. reflexivity.
Defined.


Lemma provider_name_round_trip_witness :
  u8 "glm" = value GLM /\ provider_of_value (u8 "glm") = Some GLM.
Proof.
  assert (E : u8 "glm" = value GLM) by reflexivity.
  split; [exact E|]. exact (proj2 (provider_name_round_trip _ _) E).
Defined.

Lemma load_config_lookup_witness :
  (forall d, Some (Raise (Exn OtherException (u8 "unreadable")))
             <> Some (Ok (PDict d)))
  /\ load_config (Some (Raise (Exn OtherException (u8 "unreadable")))) = ∅
  /\ load_config (Some (Ok (PDict sample_file))) !! DEEPSEEK
     = assoc sample_file (value DEEPSEEK).
Proof.
  assert (Hf : forall d, Some (Raise (Exn OtherException (u8 "unreadable")))
                         <> Some (Ok (PDict d))) by (intros d; discriminate).
  destruct load_config_lookup as (Hlookup & _ & Hempty).
  split; [exact Hf|]. split; [exact (Hempty _ Hf)|exact (Hlookup _ _)].
Defined.

Lemma available_iff_status_true_witness :
  get_available_providers {[ DEEPSEEK := deepseek_entry ]} = Ok [u8 "deepseek"]
  /\ (exists status v,
        get_provider_status {[ DEEPSEEK := deepseek_entry ]} = Ok status
        /\ status !! value DEEPSEEK = Some v /\ truthy v = true)
  /\ get_available_providers mixed_store
     = Raise (Exn AttributeError
                (u8 "'" ++ type_name (PStr (u8 "later"))
                 ++ u8 "' object has no attribute 'get'"))
  /\ get_provider_status mixed_store
     = Raise (Exn AttributeError
                (u8 "'" ++ type_name (PStr (u8 "later"))
                 ++ u8 "' object has no attribute 'get'")).
Proof.
  assert (En : get_available_providers {[ DEEPSEEK := deepseek_entry ]}
               = Ok [u8 "deepseek"]) by (vm_compute; reflexivity).
  assert (Er : get_available_providers mixed_store
               = Raise (Exn AttributeError
                          (u8 "'" ++ type_name (PStr (u8 "later"))
                           ++ u8 "' object has no attribute 'get'")))
    by (vm_compute; reflexivity).
  split; [exact En|].
  destruct (get_provider_status {[ DEEPSEEK := deepseek_entry ]})
    as [status|e] eqn:Es; [|vm_compute in Es; discriminate].
  destruct (available_iff_status_true {[ DEEPSEEK := deepseek_entry ]})
    as (Hsame & _).
  destruct (available_iff_status_true mixed_store) as (_ & _ & Hraise & _).
  split.
  - destruct (proj1 (proj1 (Hsame _ status En Es DEEPSEEK)))
      as (v & Hv & Ht); [apply list_elem_of_here|].
    exists status, v. split; [reflexivity|]. split; [exact Hv|exact Ht].
  - split; [exact Er|]. exact (proj1 (Hraise _) Er).
Defined.

Lemma blank_key_available_but_invalid_witness :
  blank [32; 32]%N
  /\ (exists names,
        get_available_providers {[ DEEPSEEK := blank_key_entry ]} = Ok names
        /\ value DEEPSEEK ∈ names)
  /\ valid (_validate_config DEEPSEEK blank_key_config) = false
  /\ (run polished_world
        (simplify_task {[ DEEPSEEK := blank_key_entry ]} (u8 "帮我打开微信")
           DEEPSEEK)).2 = [].
Proof.
  assert (Hb : blank [32; 32]%N) by (vm_compute; reflexivity).
  split; [exact Hb|].
  destruct (@blank_key_available_but_invalid ascii_runtime polished_world
              {[ DEEPSEEK := blank_key_entry ]} (u8 "帮我打开微信") DEEPSEEK
              [(u8 "api_key", PStr [32; 32]%N);
               (u8 "base_url", PStr (u8 "https://api.deepseek.com"));
               (u8 "model", PStr (u8 "deepseek-chat"))] [32; 32]%N)
    as (_ & Ha & _ & Hrun).
  - vm_compute. reflexivity.
  - vm_compute. reflexivity.
  - discriminate.
  - exact Hb.
  - split.
    + apply Ha. intros q v Hq.
      apply lookup_singleton_Some in Hq as [_ <-]. by eexists.
    + split; [vm_compute; reflexivity|]. by rewrite Hrun.
Defined.

Lemma manager_named_provider_witness :
  u8 "mistral" <> [] /\ (forall p, u8 "mistral" <> value p)
  /\ manager_simplify_task mixed_store (u8 "帮我打开微信") (Some (u8 "mistral"))
     = Raise (Exn ValueError
                (repr_obj (PStr (u8 "mistral")) ++ u8 " is not a valid AIProvider"))
  /\ exists m,
      manager_simplify_task mixed_store (u8 "帮我打开微信") (Some (u8 "glm"))
      = Ok m
      /\ run polished_world m
         = (Single {| success := false; provider := Some (value GLM);
                      simplified_task := u8 "帮我打开微信";
                      error := Some (u8 "配置验证异常: "
                                     ++ (u8 "'" ++ type_name (PStr (u8 "later"))
                                         ++ u8 "' object has no attribute 'get'"));
                      field := Some (u8 "unknown"); usage := None;
                      all_results := None |}, []).
Proof.
  assert (Hn : u8 "mistral" <> []) by (vm_compute; discriminate).
  assert (Hp : forall p, u8 "mistral" <> value p)
    by (intros p E; destruct p; vm_compute in E; discriminate).
  split; [exact Hn|]. split; [exact Hp|]. split.
  - exact (proj2 (@manager_named_provider ascii_runtime mixed_store
                    (u8 "帮我打开微信") (u8 "mistral") Hn) Hp).
  - assert (Hg : u8 "glm" <> []) by (vm_compute; discriminate).
    destruct (proj1 (@manager_named_provider ascii_runtime mixed_store
                       (u8 "帮我打开微信") (u8 "glm") Hg) GLM eq_refl)
      as (m & Hm & _ & Hother).
    exists m. split; [exact Hm|].
    apply Hother; [vm_compute; reflexivity|discriminate].
Defined.

Lemma manager_all_available_witness :
  available_providers ∅ = Ok []
  /\ manager_simplify_task ∅ (u8 "帮我打开微信") None
     = Ok (Done (Single {| success := false; provider := None;
                           simplified_task := u8 "帮我打开微信";
                           error := Some (u8 "没有配置可用的AI平台");
                           field := None; usage := None;
                           all_results := None |}))
  /\ available_providers mixed_store
     = Raise (Exn AttributeError
                (u8 "'" ++ type_name (PStr (u8 "later"))
                 ++ u8 "' object has no attribute 'get'"))
  /\ manager_simplify_task mixed_store (u8 "帮我打开微信") None
     = Raise (Exn AttributeError
                (u8 "'" ++ type_name (PStr (u8 "later"))
                 ++ u8 "' object has no attribute 'get'")).
Proof.
  assert (Ha : available_providers ∅ = Ok []) by (vm_compute; reflexivity).
  assert (Hr : available_providers mixed_store
               = Raise (Exn AttributeError
                          (u8 "'" ++ type_name (PStr (u8 "later"))
                           ++ u8 "' object has no attribute 'get'")))
    by (vm_compute; reflexivity).
  split; [exact Ha|].
  destruct (@manager_all_available ascii_runtime ∅ (u8 "帮我打开微信"))
    as (_ & _ & _ & Hnone & _).
  destruct (@manager_all_available ascii_runtime mixed_store
              (u8 "帮我打开微信")) as (_ & Hraise & _).
  split; [exact (Hnone Ha)|]. split; [exact Hr|exact (Hraise _ Hr)].
Defined.
